(** * MedWell backend: the route handlers of [server/server.js]

    A shallow embedding of the seven route handlers that [server.js]
    registers on the Express application (user profile, reminders and the
    two completion passthroughs), together with the properties that the
    design document states about them.

    The handlers are glue around two collaborators that live outside the
    file: the document store (Mongoose models [User] and [Reminder]) and the
    completion vendor ([groq.chat.completions.create]).  Both are modelled
    as part of an explicit [world] that every handler threads: the two
    collections, a fault switch for the store, the vendor's behaviour as a
    function of the request it receives, and the log of requests sent to it.
    A handler is a computation in a small state-and-exception monad, so that
    [try { ... } catch (err) { ... }] reads as it does in the source.

    The routers that [server.js] mounts from [./routes] and the two schemas
    under [./models] are other files; what the handlers need of the schemas
    (defaults of a new profile, the cast of a due date) is a parameter of
    the development.  The store matches [userId] as an opaque key, by
    equality; query operators are outside the model. *)

From Stdlib Require Import List String Ascii ZArith Bool Lia QArith.
From Stdlib Require Import Sorting.Mergesort Sorting.Sorted Sorting.Permutation.
From Stdlib Require DecimalString.
Import ListNotations.

Local Close Scope Q_scope.
Local Open Scope string_scope.
Local Open Scope list_scope.

(* ===================================================================== *)
(** ** JavaScript values *)
(* ===================================================================== *)

Module Js.

(** The values that [express.json()] and the query-string parser hand to a
    handler.  [undefined] is not a constructor: a property that may be
    undefined has type [option value], [None] standing for [undefined].
    Numbers are the integer-valued ones. *)
#[local] Unset Elimination Schemes.
Inductive value : Type :=
| JNull
| JBool (b : bool)
| JNum (n : Z)
| JStr (s : string)
| JArr (items : list value)
| JObj (fields : list (string * value)).
#[local] Set Elimination Schemes.

Definition obj := list (string * value).

(** Property lookup on an object: [o.k], [None] when [k] is not a key. *)
Fixpoint get (k : string) (o : obj) : option value :=
  match o with
  | [] => None
  | (k', v) :: rest => if String.eqb k k' then Some v else get k rest
  end.

(** [o.k = v] on a plain object: replaces the value where the key exists,
    adds the key at the end otherwise. *)
Fixpoint set_field (k : string) (v : value) (o : obj) : obj :=
  match o with
  | [] => [(k, v)]
  | (k', v') :: rest =>
      if String.eqb k k' then (k', v) :: rest
      else (k', v') :: set_field k v rest
  end.

(** The rest pattern [{a, b, c, ...rest} = o]: [o] without the keys that
    were taken out. *)
Definition omit (ks : list string) (o : obj) : obj :=
  filter (fun kv => negb (existsb (String.eqb (fst kv)) ks)) o.

(** Truthiness, as [!x] and [x || y] see it.  [undefined], [null],
    [false], [0] and the empty string are falsy; arrays and objects are
    truthy, empty or not. *)
Definition truthy (x : option value) : bool :=
  match x with
  | None => false
  | Some JNull => false
  | Some (JBool b) => b
  | Some (JNum n) => negb (Z.eqb n 0)
  | Some (JStr s) => negb (String.eqb s "")
  | Some (JArr _) => true
  | Some (JObj _) => true
  end.

(** [x || y] *)
Definition or_else (x y : option value) : option value :=
  if truthy x then x else y.

(** Structural equality of values, the matching rule of an equality
    filter [{ userId }]. *)
Fixpoint value_eqb (a b : value) {struct a} : bool :=
  match a, b with
  | JNull, JNull => true
  | JBool x, JBool y => Bool.eqb x y
  | JNum x, JNum y => Z.eqb x y
  | JStr x, JStr y => String.eqb x y
  | JArr xs, JArr ys =>
      (fix items_eqb (xs ys : list value) {struct xs} : bool :=
         match xs, ys with
         | [], [] => true
         | x :: xs', y :: ys' => value_eqb x y && items_eqb xs' ys'
         | _, _ => false
         end) xs ys
  | JObj xs, JObj ys =>
      (fix fields_eqb (xs ys : obj) {struct xs} : bool :=
         match xs, ys with
         | [], [] => true
         | (k, x) :: xs', (k', y) :: ys' =>
             String.eqb k k' && value_eqb x y && fields_eqb xs' ys'
         | _, _ => false
         end) xs ys
  | _, _ => false
  end.

(** [String(n)] for an integer-valued number. *)
Definition number_to_string (n : Z) : string :=
  DecimalString.NilZero.string_of_int (Z.to_int n).

(** [Array.prototype.join] on already converted items. *)
Fixpoint join (sep : string) (l : list string) : string :=
  match l with
  | [] => ""
  | [s] => s
  | s :: rest => s ++ sep ++ join sep rest
  end.

(** [String(v)], the conversion [join] applies to the items of an array:
    [null] (and [undefined]) items become the empty string inside a join,
    a nested array is joined with a bare comma, an object prints as
    [[object Object]]. *)
Fixpoint to_string (v : value) : string :=
  match v with
  | JNull => "null"
  | JBool true => "true"
  | JBool false => "false"
  | JNum n => number_to_string n
  | JStr s => s
  | JArr items =>
      join ","
        ((fix conv (l : list value) : list string :=
            match l with
            | [] => []
            | JNull :: l' => "" :: conv l'
            | x :: l' => to_string x :: conv l'
            end) items)
  | JObj _ => "[object Object]"
  end.

Definition join_item (v : value) : string :=
  match v with
  | JNull => ""
  | _ => to_string v
  end.

(** [symptoms.join(sep)] *)
Definition array_join (sep : string) (items : list value) : string :=
  join sep (map join_item items).

(** A thrown [Error]; handlers only ever read its [message]. *)
Record error : Type := Error { err_message : string }.

(** Reading property [k] of an arbitrary value [v], as in [m.role].
    On [null] this throws a [TypeError]; on an object it is a lookup;
    strings, numbers, booleans and arrays have none of the properties the
    handlers read ([role], [message], [content]), so the result is
    [undefined]. *)
Definition prop (v : value) (k : string) : error + option value :=
  match v with
  | JNull =>
      inl (Error ("Cannot read properties of null (reading '" ++ k ++ "')"))
  | JObj o => inr (get k o)
  | _ => inr None
  end.

End Js.
Import Js.

Section ValueInduction.

Variable P : value -> Prop.
Hypothesis HNull : P JNull.
Hypothesis HBool : forall b, P (JBool b).
Hypothesis HNum : forall n, P (JNum n).
Hypothesis HStr : forall s, P (JStr s).
Hypothesis HArr : forall items, Forall P items -> P (JArr items).
Hypothesis HObj :
  forall fields, Forall (fun kv => P (snd kv)) fields -> P (JObj fields).

(** Induction on a value, with the hypothesis available for every item of
    an array and every field of an object. *)
Fixpoint value_ind (v : value) : P v :=
  match v with
  | JNull => HNull
  | JBool b => HBool b
  | JNum n => HNum n
  | JStr s => HStr s
  | JArr items =>
      HArr items
        ((fix all (l : list value) : Forall P l :=
            match l with
            | [] => Forall_nil _
            | x :: l' => Forall_cons x (value_ind x) (all l')
            end) items)
  | JObj fields =>
      HObj fields
        ((fix all (l : obj) : Forall (fun kv => P (snd kv)) l :=
            match l with
            | [] => Forall_nil _
            | kv :: l' =>
                Forall_cons (P := fun kv => P (snd kv)) kv
                  (value_ind (snd kv)) (all l')
            end) fields)
  end.

End ValueInduction.

(* ===================================================================== *)
(** ** The world a handler runs in *)
(* ===================================================================== *)

(** A user profile document is an open map from field names to values. *)
Definition doc := obj.

(** Modelled from the spec: [models/Reminder] is not part of the sources.
    A reminder holds an auto-generated id, the owner's [userId], a [title],
    a [dueDate] and an optional [description].  The due date is stored as a
    point in time (milliseconds since the epoch), which is what the listing
    sorts on; the other fields are stored as received. *)
Record reminder : Type := Reminder {
  r_id : nat;
  r_userId : value;
  r_title : value;
  r_dueDate : Z;
  r_description : option value
}.

(** One entry of the [messages] array sent to the vendor.  Entries built
    from [chatHistory] copy whatever the client supplied, so both fields may
    be undefined. *)
Record chat_message : Type := ChatMessage {
  role : option value;
  content : option value
}.

(** The argument of [groq.chat.completions.create]. *)
Record completion_request : Type := CompletionRequest {
  messages : list chat_message;
  model : string;
  temperature : Q;
  max_tokens : Z
}.

(** What the vendor resolves with, as far as the handlers look into it:
    [choices[0]?.message?.content]. *)
Record reply_message : Type := ReplyMessage { reply_content : option string }.
Record choice : Type := Choice { message : option reply_message }.
Record chat_completion : Type := ChatCompletion { choices : list choice }.

(** The state threaded through a handler.  [store_fault = Some e] means the
    store is unreachable and every store call rejects with [e].  [groq] is
    the vendor's behaviour: for each request, the error it rejects with or
    the completion it resolves with.  [groq_calls] logs the requests sent,
    most recent first. *)
Record world : Type := World {
  users : list doc;
  reminders : list reminder;
  next_id : nat;
  store_fault : option error;
  groq : completion_request -> error + chat_completion;
  groq_calls : list completion_request
}.

Definition set_users (us : list doc) (w : world) : world :=
  World us (reminders w) (next_id w) (store_fault w) (groq w) (groq_calls w).

Definition add_reminder (r : reminder) (w : world) : world :=
  World (users w) (reminders w ++ [r]) (next_id w) (store_fault w) (groq w)
        (groq_calls w).

Definition bump_id (w : world) : world :=
  World (users w) (reminders w) (S (next_id w)) (store_fault w) (groq w)
        (groq_calls w).

Definition log_call (rq : completion_request) (w : world) : world :=
  World (users w) (reminders w) (next_id w) (store_fault w) (groq w)
        (rq :: groq_calls w).

(* ===================================================================== *)
(** ** Computations that may throw *)
(* ===================================================================== *)

Inductive outcome (A : Type) : Type :=
| Returns (a : A)
| Throws (e : error).
Arguments Returns {A} a.
Arguments Throws {A} e.

Definition M (A : Type) : Type := world -> outcome A * world.

Definition ret {A} (a : A) : M A := fun w => (Returns a, w).

Definition throw {A} (e : error) : M A := fun w => (Throws e, w).

Definition bind {A B} (c : M A) (k : A -> M B) : M B :=
  fun w =>
    match c w with
    | (Returns a, w') => k a w'
    | (Throws e, w') => (Throws e, w')
    end.

(** [try { c } catch (err) { h err }] *)
Definition try_catch {A} (c : M A) (h : error -> M A) : M A :=
  fun w =>
    match c w with
    | (Returns a, w') => (Returns a, w')
    | (Throws e, w') => h e w'
    end.

(** A pure step that may throw. *)
Definition lift {A} (x : error + A) : M A :=
  match x with
  | inl e => throw e
  | inr a => ret a
  end.

Declare Scope js_scope.
Delimit Scope js_scope with js.
Notation "x <- c ;; k" := (bind c (fun x => k))
  (at level 100, c at next level, right associativity) : js_scope.
Local Open Scope js_scope.

(** A call that reaches the store: rejects while the store is faulty,
    performs [op] otherwise. *)
Definition store_call {A} (op : world -> A * world) : M A :=
  fun w =>
    match store_fault w with
    | Some e => (Throws e, w)
    | None => let (a, w') := op w in (Returns a, w')
    end.

(** The vendor call: the request is logged, then the vendor answers. *)
Definition groq_chat_completions_create (rq : completion_request)
  : M chat_completion :=
  fun w =>
    match groq w rq with
    | inl e => (Throws e, log_call rq w)
    | inr c => (Returns c, log_call rq w)
    end.

(* ===================================================================== *)
(** ** Requests and responses *)
(* ===================================================================== *)

(** What a handler reads of [req]: the parsed query string and the parsed
    JSON body, both objects. *)
Record request : Type := Request {
  query : obj;
  body : obj
}.

(** The argument of [res.json]: an object literal built by the handler, or
    documents of the [Reminder] model. *)
Inductive payload : Type :=
| Json (v : value)
| ReminderDoc (r : reminder)
| ReminderDocs (rs : list reminder).

(** [res.status(code).json(payload)] *)
Record response : Type := Response {
  status : nat;
  json : payload
}.

(** [{ message: msg }] *)
Definition message_only (msg : string) : payload :=
  Json (JObj [("message", JStr msg)]).

(** [{ message: msg, error: err.message }] *)
Definition message_and_error (msg : string) (err : error) : payload :=
  Json (JObj [("message", JStr msg); ("error", JStr (err_message err))]).

(** Field [k] of a JSON payload, [None] when the payload is not an object
    or has no such field. *)
Definition payload_field (k : string) (p : payload) : option value :=
  match p with
  | Json (JObj o) => get k o
  | _ => None
  end.

(** A field that was not supplied, or was supplied as the empty string. *)
Definition absent_or_empty (x : option value) : Prop :=
  x = None \/ x = Some (JStr "").

(** The guard [if (!x) return ...]: the value when it is truthy. *)
Definition present (x : option value) : option value :=
  if truthy x then x else None.

(** [Array.isArray(x)], with the items when it holds. *)
Definition as_array (x : option value) : option (list value) :=
  match x with
  | Some (JArr items) => Some items
  | _ => None
  end.

(** [chatCompletion.choices[0]?.message?.content] *)
Definition first_content (c : chat_completion) : option string :=
  match choices c with
  | [] => None
  | ch :: _ =>
      match message ch with
      | None => None
      | Some m => reply_content m
      end
  end.

(** [text || fallback] on an optional string. *)
Definition or_fallback (text : option string) (fallback : string) : string :=
  match text with
  | Some s => if String.eqb s "" then fallback else s
  | None => fallback
  end.

Definition SYSTEM_PROMPT : string :=
  "You are a helpful health assistant. Provide general info, do not diagnose. Suggest users consult a doctor.".

(** The callback of [chatHistory.map]:
    [(m) => ({ role: m.role, content: m.message || m.content })]. *)
Definition history_entry (m : value) : error + chat_message :=
  match prop m "role" with
  | inl e => inl e
  | inr r =>
      match prop m "message" with
      | inl e => inl e
      | inr msg =>
          if truthy msg then inr (ChatMessage r msg)
          else match prop m "content" with
               | inl e => inl e
               | inr c => inr (ChatMessage r c)
               end
      end
  end.

(** [xs.map(f)] for a callback that may throw: stops at the first throw. *)
Fixpoint map_throwing {A B} (f : A -> error + B) (xs : list A)
  : error + list B :=
  match xs with
  | [] => inr []
  | x :: rest =>
      match f x with
      | inl e => inl e
      | inr y =>
          match map_throwing f rest with
          | inl e => inl e
          | inr ys => inr (y :: ys)
          end
      end
  end.

(** [chatHistory.map(f)] on an arbitrary value: only arrays have [map]. *)
Definition history_map (chatHistory : value) : error + list chat_message :=
  match chatHistory with
  | JArr items => map_throwing history_entry items
  | JNull => inl (Error "Cannot read properties of null (reading 'map')")
  | _ => inl (Error "chatHistory.map is not a function")
  end.

(* ===================================================================== *)
(** ** The document store *)
(* ===================================================================== *)

(** Ascending order on due dates, the key of [.sort({ dueDate: 1 })]. *)
Module DueDateOrder <: Orders.TotalLeBool.
Definition t := reminder.
Definition leb (a b : reminder) : bool := Z.leb (r_dueDate a) (r_dueDate b).
Lemma leb_total : forall a b, leb a b = true \/ leb b a = true.
Proof.
  intros a b. unfold leb.
  destruct (Z.leb_spec (r_dueDate a) (r_dueDate b)) as [H | H].
  - now left.
  - right. apply Z.leb_le. lia.
Qed.
End DueDateOrder.

Module ReminderSort := Mergesort.Sort DueDateOrder.

(** The equality filter [{ userId }] on a profile document. *)
Definition has_userId (u : value) (d : doc) : bool :=
  match get "userId" d with
  | Some v => value_eqb v u
  | None => false
  end.

(** The equality filter [{ userId }] on a reminder. *)
Definition owned_by (u : value) (r : reminder) : bool :=
  value_eqb (r_userId r) u.

(** [$set]: every field of the update is written into the document, the
    other fields stay. *)
Definition apply_set (upd : obj) (d : doc) : doc :=
  fold_left (fun acc kv => set_field (fst kv) (snd kv) acc) upd d.

(** Rewrites the first document that satisfies [p]; returns the rewritten
    document and the new collection, or [None] when nothing matches. *)
Fixpoint update_first (p : doc -> bool) (f : doc -> doc) (l : list doc)
  : option (doc * list doc) :=
  match l with
  | [] => None
  | d :: rest =>
      if p d then Some (f d, f d :: rest)
      else match update_first p f rest with
           | Some (d', rest') => Some (d', d :: rest')
           | None => None
           end
  end.

(** [setDefaultsOnInsert]: schema defaults fill the fields the new document
    does not have yet. *)
Definition with_defaults (defaults : obj) (d : doc) : doc :=
  fold_left
    (fun acc kv =>
       match get (fst kv) acc with
       | Some _ => acc
       | None => acc ++ [kv]
       end)
    defaults d.

(** A reminder as built by [new Reminder({...})], before it is saved: the
    id is already assigned, the due date has been cast by the schema and
    the cast may have failed. *)
Record reminder_draft : Type := Draft {
  d_id : nat;
  d_userId : value;
  d_title : value;
  d_dueDate : error + Z;
  d_description : option value
}.

Section Server.

(** Modelled from the spec: [models/UserProfile] is not part of the
    sources.  A profile is keyed by [userId] and holds [name], [email] and
    an open-ended set of further attributes; the schema contributes only the
    defaults that are filled in when a profile is inserted. *)
Variable UserProfile_defaults : obj.

(** Modelled from the spec: the [dueDate] path of [models/Reminder], as the
    cast of a received value to a point in time, or the validation error
    that [save] rejects with. *)
Variable cast_dueDate : value -> error + Z.

(** [User.findOne({ userId })] *)
Definition User_findOne (userId : value) : M (option doc) :=
  store_call (fun w => (find (has_userId userId) (users w), w)).

(** [User.findOneAndUpdate({ userId }, update, { new: true, upsert })].
    The update is a field set, whether written as [{ $set: fields }] or as
    bare fields.  With [new: true] the document after the update is
    returned; without [upsert], [null] when nothing matches. *)
Definition User_findOneAndUpdate (userId : value) (update : obj)
  (upsert : bool) : M (option doc) :=
  store_call (fun w =>
    match update_first (has_userId userId) (apply_set update) (users w) with
    | Some (d, us) => (Some d, set_users us w)
    | None =>
        if upsert then
          let d :=
            with_defaults UserProfile_defaults
              (apply_set update [("userId", userId)]) in
          (Some d, set_users (users w ++ [d]) w)
        else (None, w)
    end).

(** [Reminder.find({ userId }).sort({ dueDate: 1 })] *)
Definition Reminder_find_sort (userId : value) : M (list reminder) :=
  store_call (fun w =>
    (ReminderSort.sort (filter (owned_by userId) (reminders w)), w)).

(** [new Reminder({ userId, title, dueDate, description })] *)
Definition new_Reminder (userId title dueDate : value)
  (description : option value) : M reminder_draft :=
  fun w =>
    (Returns (Draft (next_id w) userId title (cast_dueDate dueDate)
                description),
     bump_id w).

(** [newReminder.save()]: validation first, then the insert. *)
Definition save (x : reminder_draft) : M reminder :=
  match d_dueDate x with
  | inl e => throw e
  | inr due =>
      let r := Reminder (d_id x) (d_userId x) (d_title x) due
                 (d_description x) in
      store_call (fun w => (r, add_reminder r w))
  end.

(* ===================================================================== *)
(** ** The route handlers *)
(* ===================================================================== *)

(** The update document [{ name, email, ...rest }]. *)
Definition profile_update (name email : value) (rest : obj) : obj :=
  ("name", name) :: ("email", email) :: rest.

(** [app.get('/api/user/profile', ...)] *)
Definition get_user_profile (req : request) : M response :=
  let userId := get "userId" (query req) in
  match present userId with
  | None => ret (Response 400 (message_only "userId is required"))
  | Some userId =>
      try_catch
        (user <- User_findOne userId ;;
         match user with
         | None => ret (Response 404 (message_only "User not found"))
         | Some user => ret (Response 200 (Json (JObj user)))
         end)
        (fun err => ret (Response 500 (message_only "Server error")))
  end.

(** [app.post('/api/user/profile', ...)] *)
Definition post_user_profile (req : request) : M response :=
  let userId := get "userId" (body req) in
  let name := get "name" (body req) in
  let email := get "email" (body req) in
  let rest := omit ["userId"; "name"; "email"] (body req) in
  match present userId, present name, present email with
  | Some userId, Some name, Some email =>
      try_catch
        (updatedUser <-
           User_findOneAndUpdate userId (profile_update name email rest)
             true ;;
         match updatedUser with
         | Some updatedUser => ret (Response 200 (Json (JObj updatedUser)))
         | None => ret (Response 200 (Json JNull))
         end)
        (fun err => ret (Response 500 (message_and_error "Server error" err)))
  | _, _, _ => ret (Response 400 (message_only "userId, name, email required"))
  end.

(** [app.put('/api/user/profile', ...)] *)
Definition put_user_profile (req : request) : M response :=
  let userId := get "userId" (query req) in
  match present userId with
  | None => ret (Response 400 (message_only "userId is required"))
  | Some userId =>
      try_catch
        (updatedUser <- User_findOneAndUpdate userId (body req) false ;;
         match updatedUser with
         | None => ret (Response 404 (message_only "User not found"))
         | Some updatedUser => ret (Response 200 (Json (JObj updatedUser)))
         end)
        (fun err => ret (Response 500 (message_and_error "Server error" err)))
  end.

(** [app.get('/api/reminders', ...)] *)
Definition get_reminders (req : request) : M response :=
  let userId := get "userId" (query req) in
  match present userId with
  | None => ret (Response 400 (message_only "userId is required"))
  | Some userId =>
      try_catch
        (reminders <- Reminder_find_sort userId ;;
         ret (Response 200 (ReminderDocs reminders)))
        (fun err => ret (Response 500 (message_and_error "Server error" err)))
  end.

(** [app.post('/api/reminders', ...)] *)
Definition post_reminders (req : request) : M response :=
  let userId := get "userId" (body req) in
  let title := get "title" (body req) in
  let dueDate := get "dueDate" (body req) in
  let description := get "description" (body req) in
  match present userId, present title, present dueDate with
  | Some userId, Some title, Some dueDate =>
      try_catch
        (newReminder <- new_Reminder userId title dueDate description ;;
         saved <- save newReminder ;;
         ret (Response 201 (ReminderDoc saved)))
        (fun err => ret (Response 500 (message_and_error "Server error" err)))
  | _, _, _ =>
      ret (Response 400 (message_only "userId, title, dueDate required"))
  end.

(** [app.post('/api/symptom-checker/identify', ...)] *)
Definition post_symptom_checker_identify (req : request) : M response :=
  try_catch
    (let symptoms := get "symptoms" (body req) in
     match as_array symptoms with
     | None | Some [] =>
         ret (Response 400 (message_only "Symptoms array required"))
     | Some items =>
         let prompt :=
           ("Given these symptoms: " ++ array_join ", " items
            ++ ", list possible medical conditions and advice.")%string in
         chatCompletion <-
           groq_chat_completions_create
             (CompletionRequest
                [ChatMessage (Some (JStr "user")) (Some (JStr prompt))]
                "llama3-8b-8192" 0.7 1024) ;;
         let aiResponse :=
           or_fallback (first_content chatCompletion) "No information found." in
         ret (Response 200 (Json (JObj [("result", JStr aiResponse)])))
     end)
    (fun err =>
       ret (Response 500 (message_and_error "Symptom checker error" err))).

(** [app.post('/api/chat', ...)] *)
Definition post_chat (req : request) : M response :=
  try_catch
    (let message := get "message" (body req) in
     let chatHistory :=
       match get "chatHistory" (body req) with
       | None => JArr []
       | Some h => h
       end in
     match present message with
     | None => ret (Response 400 (message_only "Message is required"))
     | Some message =>
         history <- lift (history_map chatHistory) ;;
         let messages :=
           [ChatMessage (Some (JStr "system")) (Some (JStr SYSTEM_PROMPT))]
           ++ history
           ++ [ChatMessage (Some (JStr "user")) (Some message)] in
         chatCompletion <-
           groq_chat_completions_create
             (CompletionRequest messages "llama3-8b-8192" 0.7 512) ;;
         let reply :=
           or_fallback (first_content chatCompletion) "No response." in
         ret (Response 200 (Json (JObj [("response", JStr reply)])))
     end)
    (fun err => ret (Response 500 (message_and_error "Chat error" err))).

End Server.

(* ===================================================================== *)
(** ** Sample data *)
(* ===================================================================== *)

Module Sample.

(** A schema that defaults [plan] to ["free"]. *)
Definition defaults : obj := [("plan", JStr "free")].

(** A due-date cast that accepts epoch milliseconds given as a number. *)
Definition cast_dueDate (v : value) : error + Z :=
  match v with
  | JNum ms => inr ms
  | _ => inl (Error "Cast to date failed for path dueDate")
  end.

(** A vendor that always answers with one choice. *)
Definition vendor (rq : completion_request) : error + chat_completion :=
  inr (ChatCompletion [Choice (Some (ReplyMessage (Some "Drink water.")))]).

(** A vendor that is down. *)
Definition vendor_down (rq : completion_request) : error + chat_completion :=
  inl (Error "fetch failed").

Definition ann : doc :=
  [("userId", JStr "u1"); ("name", JStr "Ann"); ("email", JStr "ann@example.org");
   ("plan", JStr "free")].

Definition ben : doc :=
  [("userId", JStr "u2"); ("name", JStr "Ben"); ("email", JStr "ben@example.org")].

Definition pills : reminder :=
  Reminder 0 (JStr "u1") (JStr "Pills") 300 None.

Definition walk : reminder :=
  Reminder 1 (JStr "u2") (JStr "Walk") 200 None.

Definition checkup : reminder :=
  Reminder 2 (JStr "u1") (JStr "Checkup") 100 (Some (JStr "Dr. Rao")).

(** An empty store, reachable. *)
Definition empty : world := World [] [] 0 None vendor [].

(** Two profiles and three reminders, reachable. *)
Definition populated : world :=
  World [ann; ben] [pills; walk; checkup] 3 None vendor [].

(** The same store while the database connection is lost. *)
Definition disconnected : world :=
  World [ann; ben] [pills; walk; checkup] 3 (Some (Error "connection lost"))
        vendor [].

(** A reachable store with the vendor down. *)
Definition vendor_outage : world :=
  World [ann; ben] [pills; walk; checkup] 3 None vendor_down [].

End Sample.

(* ===================================================================== *)
(** ** Values and objects: basic facts *)
(* ===================================================================== *)

Lemma value_eqb_eq : forall a b, value_eqb a b = true <-> a = b.
Proof.
  induction a as [ | x | x | x | xs IH | xs IH ] using value_ind;
    intros [ | y | y | y | ys | ys ]; simpl;
    try (split; [discriminate | congruence]);
    try (split; [reflexivity | reflexivity]).
  - rewrite Bool.eqb_true_iff. split; congruence.
  - rewrite Z.eqb_eq. split; congruence.
  - rewrite String.eqb_eq. split; congruence.
  - revert ys. induction IH as [ | x xs Hx _ IHxs ]; intros [ | y ys];
      try (split; [discriminate | congruence]); [tauto | ].
    rewrite andb_true_iff, Hx, IHxs. split.
    + intros [-> E]. now inversion E.
    + intros E. inversion E. auto.
  - revert ys. induction IH as [ | [k x] xs Hx _ IHxs ]; intros [ | [k' y] ys];
      try (split; [discriminate | congruence]); [tauto | ].
    simpl in Hx.
    rewrite !andb_true_iff, String.eqb_eq, Hx, IHxs. split.
    + intros [[-> ->] E]. now inversion E.
    + intros E. inversion E. auto.
Qed.

Lemma get_set_field_same : forall k v o, get k (set_field k v o) = Some v.
Proof.
  intros k v o. induction o as [ | [k' v'] o IH ]; simpl.
  - now rewrite String.eqb_refl.
  - destruct (String.eqb k k') eqn:E; simpl; rewrite E; auto.
Qed.

Lemma get_set_field_other :
  forall k k' v o, k <> k' -> get k' (set_field k v o) = get k' o.
Proof.
  intros k k' v o Hne. induction o as [ | [k0 v0] o IH ]; simpl.
  - destruct (String.eqb_spec k' k); congruence.
  - destruct (String.eqb_spec k k0) as [-> | Hk]; simpl.
    + destruct (String.eqb_spec k' k0); congruence.
    + now rewrite IH.
Qed.

Lemma get_app :
  forall k o1 o2,
    get k (o1 ++ o2) = match get k o1 with Some v => Some v | None => get k o2 end.
Proof.
  intros k o1 o2. induction o1 as [ | [k' v'] o1 IH ]; simpl; auto.
  destruct (String.eqb k k'); auto.
Qed.

(** [$set] is last-write-wins over the update, and leaves every field the
    update does not name. *)
Lemma get_apply_set :
  forall k upd d,
    get k (apply_set upd d) =
    match get k (rev upd) with Some v => Some v | None => get k d end.
Proof.
  intros k upd. unfold apply_set.
  induction upd as [ | [k' v'] upd IH ]; intros d; simpl; auto.
  rewrite IH, get_app. destruct (get k (rev upd)); auto.
  simpl. destruct (String.eqb_spec k k') as [-> | Hne].
  - apply get_set_field_same.
  - apply get_set_field_other. congruence.
Qed.

Lemma get_rev_None : forall k o, get k o = None -> get k (rev o) = None.
Proof.
  intros k o. induction o as [ | [k' v'] o IH ]; simpl; auto.
  destruct (String.eqb k k') eqn:E; [discriminate | ].
  intros H. rewrite get_app, IH by assumption. simpl. now rewrite E.
Qed.

Lemma get_apply_set_untouched :
  forall k upd d, get k upd = None -> get k (apply_set upd d) = get k d.
Proof.
  intros k upd d H. rewrite get_apply_set.
  now rewrite (get_rev_None _ _ H).
Qed.

Lemma get_omit_in :
  forall k ks o, In k ks -> get k (omit ks o) = None.
Proof.
  intros k ks o Hin. unfold omit.
  induction o as [ | [k' v'] o IH ]; simpl; auto.
  destruct (existsb (String.eqb k') ks) eqn:E; simpl; auto.
  destruct (String.eqb_spec k k') as [-> | Hne]; auto.
  exfalso. assert (existsb (String.eqb k') ks = true); [ | congruence ].
  apply existsb_exists. exists k'. split; auto. apply String.eqb_refl.
Qed.

Lemma get_omit_out :
  forall k ks o, ~ In k ks -> get k (omit ks o) = get k o.
Proof.
  intros k ks o Hout. unfold omit.
  induction o as [ | [k' v'] o IH ]; simpl; auto.
  destruct (existsb (String.eqb k') ks) eqn:E; simpl.
  - destruct (String.eqb_spec k k') as [-> | Hne]; auto.
    exfalso. apply existsb_exists in E. destruct E as [x [Hx Ex]].
    apply String.eqb_eq in Ex. subst x. auto.
  - destruct (String.eqb k k'); auto.
Qed.

Lemma get_with_defaults_kept :
  forall k defaults d v,
    get k d = Some v -> get k (with_defaults defaults d) = Some v.
Proof.
  intros k defaults. unfold with_defaults.
  induction defaults as [ | [k' v'] defaults IH ]; intros d v H; simpl; auto.
  apply IH. destruct (get k' d); auto.
  rewrite get_app, H. reflexivity.
Qed.

(* ===================================================================== *)
(** ** The store: basic facts *)
(* ===================================================================== *)

Lemma find_none_filter :
  forall (p : doc -> bool) l, find p l = None -> filter p l = [].
Proof.
  intros p l. induction l as [ | d l IH ]; simpl; auto.
  destruct (p d); [discriminate | auto].
Qed.

Lemma filter_none :
  forall (p : doc -> bool) l,
    (forall x, In x l -> p x = false) -> filter p l = [].
Proof.
  intros p l. induction l as [ | d l IH ]; simpl; intros H; auto.
  rewrite (H d) by auto. apply IH. auto.
Qed.

Lemma find_some_split :
  forall (p : doc -> bool) l d,
    find p l = Some d ->
    exists pre post,
      l = pre ++ d :: post /\ p d = true /\ (forall x, In x pre -> p x = false).
Proof.
  intros p l. induction l as [ | a l IH ]; simpl; intros d H; [discriminate | ].
  destruct (p a) eqn:E.
  - inversion H; subst a. exists [], l. simpl. tauto.
  - destruct (IH d H) as (pre & post & -> & Hd & Hpre).
    exists (a :: pre), post. simpl. repeat split; auto.
    intros x [<- | Hx]; auto.
Qed.

(** The update rewrites the first match where it stands. *)
Lemma update_first_in_place :
  forall (p : doc -> bool) f pre d post,
    p d = true -> (forall x, In x pre -> p x = false) ->
    update_first p f (pre ++ d :: post) = Some (f d, pre ++ f d :: post).
Proof.
  intros p f pre d post Hd. induction pre as [ | a pre IH ]; simpl; intros Hpre.
  - now rewrite Hd.
  - rewrite (Hpre a) by auto. rewrite IH by auto. reflexivity.
Qed.

Lemma update_first_no_match :
  forall (p : doc -> bool) f l, find p l = None -> update_first p f l = None.
Proof.
  intros p f l. induction l as [ | a l IH ]; simpl; auto.
  destruct (p a); [discriminate | ]. intros H. now rewrite IH.
Qed.

Lemma has_userId_apply_set :
  forall u upd d,
    get "userId" upd = None -> has_userId u (apply_set upd d) = has_userId u d.
Proof.
  intros u upd d H. unfold has_userId.
  now rewrite get_apply_set_untouched.
Qed.

Lemma has_userId_eq :
  forall u d, has_userId u d = true <-> get "userId" d = Some u.
Proof.
  intros u d. unfold has_userId. destruct (get "userId" d) as [v | ].
  - rewrite value_eqb_eq. split; congruence.
  - split; discriminate.
Qed.

Lemma present_some :
  forall x v, present x = Some v -> x = Some v /\ truthy (Some v) = true.
Proof.
  intros x v. unfold present. destruct (truthy x) eqn:E; [ | discriminate ].
  intros ->. auto.
Qed.

Lemma absent_or_empty_present :
  forall x, absent_or_empty x -> present x = None.
Proof. intros x [-> | ->]; reflexivity. Qed.

Lemma present_none :
  forall x, truthy x = false -> present x = None.
Proof. intros x H. unfold present. now rewrite H. Qed.

(* ===================================================================== *)
(** ** Profile create-or-replace *)
(* ===================================================================== *)

Section Profile.

Variable UserProfile_defaults : obj.

Lemma profile_update_no_userId :
  forall name email req,
    get "userId" (profile_update name email (omit ["userId"; "name"; "email"] (body req))) = None.
Proof.
  intros. unfold profile_update. simpl. apply get_omit_in. simpl. auto.
Qed.

Lemma profile_update_name :
  forall name email req d,
    get "name" (apply_set (profile_update name email (omit ["userId"; "name"; "email"] (body req))) d)
    = Some name.
Proof.
  intros. rewrite get_apply_set. unfold profile_update. simpl.
  rewrite !get_app, get_rev_None by (apply get_omit_in; simpl; auto).
  reflexivity.
Qed.

(** With the store reachable and the three required fields truthy, the
    handler performs the upsert and answers 200 with the document. *)
Lemma post_user_profile_runs :
  forall req w userId name email,
    store_fault w = None ->
    present (get "userId" (body req)) = Some userId ->
    present (get "name" (body req)) = Some name ->
    present (get "email" (body req)) = Some email ->
    post_user_profile UserProfile_defaults req w =
    match update_first (has_userId userId)
            (apply_set (profile_update name email (omit ["userId"; "name"; "email"] (body req))))
            (users w) with
    | Some (d, us) => (Returns (Response 200 (Json (JObj d))), set_users us w)
    | None =>
        let d := with_defaults UserProfile_defaults
                   (apply_set (profile_update name email (omit ["userId"; "name"; "email"] (body req)))
                      [("userId", userId)]) in
        (Returns (Response 200 (Json (JObj d))), set_users (users w ++ [d]) w)
    end.
Proof.
  intros req w userId name email Hf Hu Hn He.
  unfold post_user_profile. rewrite Hu, Hn, He.
  unfold try_catch, bind, User_findOneAndUpdate, store_call. rewrite Hf.
  destruct (update_first _ _ (users w)) as [[d us] | ]; reflexivity.
Qed.

(** One accepted post leaves exactly one record for the key, carrying the
    posted name, provided the key was not duplicated before. *)
Lemma post_user_profile_upsert :
  forall req w userId name email,
    store_fault w = None ->
    present (get "userId" (body req)) = Some userId ->
    present (get "name" (body req)) = Some name ->
    present (get "email" (body req)) = Some email ->
    List.length (filter (has_userId userId) (users w)) <= 1 ->
    exists d w',
      post_user_profile UserProfile_defaults req w
        = (Returns (Response 200 (Json (JObj d))), w') /\
      filter (has_userId userId) (users w') = [d] /\
      get "name" d = Some name /\
      store_fault w' = None /\
      List.length (users w') =
        (if existsb (has_userId userId) (users w)
         then List.length (users w) else S (List.length (users w))).
Proof.
  intros req w userId name email Hf Hu Hn He Huniq.
  rewrite (post_user_profile_runs req w userId name email) by assumption.
  set (upd := profile_update name email (omit ["userId"; "name"; "email"] (body req))).
  assert (Hkeep : forall d, has_userId userId (apply_set upd d)
                            = has_userId userId d).
  { intros d. apply has_userId_apply_set, profile_update_no_userId. }
  destruct (find (has_userId userId) (users w)) as [d | ] eqn:Hfind.
  - destruct (find_some_split _ _ _ Hfind) as (pre & post & Hl & Hd & Hpre).
    rewrite Hl, update_first_in_place by assumption.
    rewrite Hl in Huniq. rewrite filter_app in Huniq. simpl in Huniq.
    rewrite Hd, (filter_none _ pre Hpre) in Huniq. simpl in Huniq.
    assert (Hpost : filter (has_userId userId) post = []).
    { destruct (filter (has_userId userId) post); [reflexivity | ].
      simpl in Huniq. lia. }
    exists (apply_set upd d), (set_users (pre ++ apply_set upd d :: post) w).
    unfold set_users; cbn [users store_fault].
    repeat split; auto.
    + rewrite filter_app. cbn [filter].
      rewrite Hkeep, Hd, (filter_none _ pre Hpre), Hpost. reflexivity.
    + apply profile_update_name.
    + assert (Hex : existsb (has_userId userId) (pre ++ d :: post) = true).
      { apply existsb_exists. exists d. split; auto.
        apply in_or_app. right. now left. }
      rewrite Hex, !length_app. reflexivity.
  - rewrite update_first_no_match by assumption. cbv zeta.
    set (d := with_defaults UserProfile_defaults
                (apply_set upd [("userId", userId)])).
    assert (Hd : has_userId userId d = true).
    { apply has_userId_eq. apply get_with_defaults_kept.
      rewrite get_apply_set_untouched by apply profile_update_no_userId.
      reflexivity. }
    exists d, (set_users (users w ++ [d]) w).
    unfold set_users; cbn [users store_fault].
    repeat split; auto.
    + rewrite filter_app, (find_none_filter _ _ Hfind). cbn [filter app].
      now rewrite Hd.
    + apply get_with_defaults_kept, profile_update_name.
    + assert (Hex : existsb (has_userId userId) (users w) = false).
      { destruct (existsb (has_userId userId) (users w)) eqn:E; auto.
        apply existsb_exists in E. destruct E as [x [Hx Ex]].
        apply (find_none _ _ Hfind) in Hx. congruence. }
      rewrite Hex, length_app. simpl. lia.
Qed.

End Profile.

(** C1. Posting a profile twice with the same [userId] (required fields
    present and the store reachable) is an upsert keyed on [userId]: both
    posts are answered 200 with the resulting record, the first post inserts
    a record when the key is new and rewrites the existing one otherwise,
    the second post rewrites in place, and afterwards exactly one record is
    stored for that [userId], which is the record returned by the second
    post and carries the second post's [name].  The key is assumed not to be
    duplicated in the store beforehand. *)
Theorem post_user_profile_twice :
  forall defaults req1 req2 w userId name1 email1 name2 email2,
    store_fault w = None ->
    List.length (filter (has_userId userId) (users w)) <= 1 ->
    present (get "userId" (body req1)) = Some userId ->
    present (get "name" (body req1)) = Some name1 ->
    present (get "email" (body req1)) = Some email1 ->
    present (get "userId" (body req2)) = Some userId ->
    present (get "name" (body req2)) = Some name2 ->
    present (get "email" (body req2)) = Some email2 ->
    exists d1 w1 d2 w2,
      post_user_profile defaults req1 w
        = (Returns (Response 200 (Json (JObj d1))), w1) /\
      post_user_profile defaults req2 w1
        = (Returns (Response 200 (Json (JObj d2))), w2) /\
      filter (has_userId userId) (users w2) = [d2] /\
      get "userId" d2 = Some userId /\
      get "name" d2 = Some name2 /\
      List.length (users w1) =
        (if existsb (has_userId userId) (users w)
         then List.length (users w) else S (List.length (users w))) /\
      List.length (users w2) = List.length (users w1).
Proof.
  intros defaults req1 req2 w userId name1 email1 name2 email2
         Hf Huniq Hu1 Hn1 He1 Hu2 Hn2 He2.
  destruct (post_user_profile_upsert defaults req1 w userId name1 email1)
    as (d1 & w1 & Hrun1 & Hone1 & _ & Hf1 & Hlen1); auto.
  destruct (post_user_profile_upsert defaults req2 w1 userId name2 email2)
    as (d2 & w2 & Hrun2 & Hone2 & Hname2 & _ & Hlen2); auto.
  { rewrite Hone1. simpl. lia. }
  exists d1, w1, d2, w2. repeat split; auto.
  - apply has_userId_eq.
    assert (Hin : In d2 (filter (has_userId userId) (users w2))).
    { rewrite Hone2. now left. }
    apply filter_In in Hin. tauto.
  - rewrite Hlen2.
    assert (Hex : existsb (has_userId userId) (users w1) = true).
    { apply existsb_exists. exists d1.
      assert (Hin : In d1 (filter (has_userId userId) (users w1))).
      { rewrite Hone1. now left. }
      apply filter_In in Hin. tauto. }
    now rewrite Hex.
Qed.

Lemma post_user_profile_twice_witness :
  exists d1 w1 d2 w2,
    post_user_profile Sample.defaults
      (Request [] [("userId", JStr "u3"); ("name", JStr "Cy");
                   ("email", JStr "cy@example.org"); ("age", JNum 40)])
      Sample.populated
      = (Returns (Response 200 (Json (JObj d1))), w1) /\
    post_user_profile Sample.defaults
      (Request [] [("userId", JStr "u3"); ("name", JStr "Cyrus");
                   ("email", JStr "cy@example.org")])
      w1
      = (Returns (Response 200 (Json (JObj d2))), w2) /\
    filter (has_userId (JStr "u3")) (users w2) = [d2] /\
    get "userId" d2 = Some (JStr "u3") /\
    get "name" d2 = Some (JStr "Cyrus") /\
    List.length (users w1) =
      (if existsb (has_userId (JStr "u3")) (users Sample.populated)
       then List.length (users Sample.populated)
       else S (List.length (users Sample.populated))) /\
    List.length (users w2) = List.length (users w1).
Proof.
  apply (post_user_profile_twice Sample.defaults _ _ Sample.populated
           (JStr "u3") (JStr "Cy") (JStr "cy@example.org")
           (JStr "Cyrus") (JStr "cy@example.org"));
    solve [reflexivity | simpl; lia].
Defined.

(* ===================================================================== *)
(** ** Reminder listing *)
(* ===================================================================== *)

Lemma StronglySorted_weaken :
  forall (A : Type) (R R' : A -> A -> Prop) l,
    (forall a b, R a b -> R' a b) -> StronglySorted R l -> StronglySorted R' l.
Proof.
  intros A R R' l Himp H.
  induction H as [ | a l Hl IH Hall ]; constructor; auto.
  revert Hall. apply Forall_impl. auto.
Qed.

Lemma owned_by_eq : forall u r, owned_by u r = true <-> r_userId r = u.
Proof. intros u r. unfold owned_by. apply value_eqb_eq. Qed.

(** C2. With a [userId] supplied and the store reachable, the reminder
    listing answers 200 with exactly the stored reminders whose [userId]
    equals the given one (each as often as it is stored), in order of
    non-decreasing due date, and leaves the store as it was. *)
Theorem get_reminders_sorted :
  forall req w userId,
    store_fault w = None ->
    present (get "userId" (query req)) = Some userId ->
    exists rs,
      get_reminders req w = (Returns (Response 200 (ReminderDocs rs)), w) /\
      Permutation rs (filter (owned_by userId) (reminders w)) /\
      (forall r, In r rs <-> In r (reminders w) /\ r_userId r = userId) /\
      StronglySorted (fun a b => (r_dueDate a <= r_dueDate b)%Z) rs.
Proof.
  intros req w userId Hf Hu.
  exists (ReminderSort.sort (filter (owned_by userId) (reminders w))).
  assert (Hperm : Permutation
            (ReminderSort.sort (filter (owned_by userId) (reminders w)))
            (filter (owned_by userId) (reminders w))).
  { apply Permutation_sym, ReminderSort.Permuted_sort. }
  split; [ | split; [exact Hperm | split ] ].
  - unfold get_reminders. rewrite Hu.
    unfold try_catch, bind, Reminder_find_sort, store_call. now rewrite Hf.
  - intros r. rewrite <- owned_by_eq, <- filter_In. split; intros Hin.
    + now apply (Permutation_in _ Hperm).
    + now apply (Permutation_in _ (Permutation_sym Hperm)).
  - apply StronglySorted_weaken
      with (R := fun a b => is_true (DueDateOrder.leb a b)).
    + intros a b H. now apply Z.leb_le.
    + apply ReminderSort.StronglySorted_sort.
      intros a b c Hab Hbc. unfold DueDateOrder.leb, is_true in *.
      apply Z.leb_le. apply Z.leb_le in Hab, Hbc. lia.
Qed.

Lemma get_reminders_sorted_witness :
  exists rs,
    get_reminders (Request [("userId", JStr "u1")] []) Sample.populated
      = (Returns (Response 200 (ReminderDocs rs)), Sample.populated) /\
    Permutation rs (filter (owned_by (JStr "u1")) (reminders Sample.populated)) /\
    (forall r, In r rs <->
               In r (reminders Sample.populated) /\ r_userId r = JStr "u1") /\
    StronglySorted (fun a b => (r_dueDate a <= r_dueDate b)%Z) rs.
Proof.
  apply (get_reminders_sorted (Request [("userId", JStr "u1")] [])
           Sample.populated (JStr "u1")); reflexivity.
Defined.

Example get_reminders_sample :
  get_reminders (Request [("userId", JStr "u1")] []) Sample.populated
  = (Returns (Response 200 (ReminderDocs [Sample.checkup; Sample.pills])),
     Sample.populated).
Proof. reflexivity. Qed.

(* ===================================================================== *)
(** ** Failures of the store and of the vendor *)
(* ===================================================================== *)

(** X25.  While the store is unreachable, every handler that calls it answers 500;
    all but the profile fetch attach the error's message. *)
Lemma store_fault_responses :
  forall defaults cast req w e userId,
    store_fault w = Some e ->
    (present (get "userId" (query req)) = Some userId ->
     get_user_profile req w
       = (Returns (Response 500 (message_only "Server error")), w) /\
     put_user_profile defaults req w
       = (Returns (Response 500 (message_and_error "Server error" e)), w) /\
     get_reminders req w
       = (Returns (Response 500 (message_and_error "Server error" e)), w)) /\
    (forall name email,
       present (get "userId" (body req)) = Some userId ->
       present (get "name" (body req)) = Some name ->
       present (get "email" (body req)) = Some email ->
       post_user_profile defaults req w
         = (Returns (Response 500 (message_and_error "Server error" e)), w)) /\
    (forall title dueDate due,
       present (get "userId" (body req)) = Some userId ->
       present (get "title" (body req)) = Some title ->
       present (get "dueDate" (body req)) = Some dueDate ->
       cast dueDate = inr due ->
       post_reminders cast req w
         = (Returns (Response 500 (message_and_error "Server error" e)),
            bump_id w)).
Proof.
  intros defaults cast req w e userId Hf. split; [ | split ].
  - intros Hu.
    unfold get_user_profile, put_user_profile, get_reminders. rewrite Hu.
    unfold try_catch, bind, User_findOne, User_findOneAndUpdate,
      Reminder_find_sort, store_call. rewrite Hf. auto.
  - intros name email Hu Hn He.
    unfold post_user_profile. rewrite Hu, Hn, He.
    unfold try_catch, bind, User_findOneAndUpdate, store_call.
    now rewrite Hf.
  - intros title dueDate due Hu Ht Hd Hcast.
    unfold post_reminders. rewrite Hu, Ht, Hd.
    unfold try_catch, bind, new_Reminder, save. cbn [d_dueDate].
    rewrite Hcast. unfold store_call. cbn [store_fault bump_id].
    now rewrite Hf.
Qed.

(* ===================================================================== *)
(** ** The chat history *)
(* ===================================================================== *)

Lemma history_entry_object :
  forall o,
    history_entry (JObj o)
    = inr (ChatMessage (get "role" o)
             (if truthy (get "message" o) then get "message" o
              else get "content" o)).
Proof.
  intros o. unfold history_entry. cbn [prop].
  destruct (truthy (get "message" o)); reflexivity.
Qed.

Lemma history_entry_total :
  forall m, m <> JNull -> exists c, history_entry m = inr c.
Proof.
  intros m Hm. destruct m; try congruence;
    try (eexists; reflexivity).
  rewrite history_entry_object. eexists. reflexivity.
Qed.

(** A [map] whose callback does not throw on any item yields one result per
    item, in order. *)
Lemma map_throwing_total :
  forall (A B : Type) (f : A -> error + B) xs,
    (forall x, In x xs -> exists y, f x = inr y) ->
    exists ys,
      map_throwing f xs = inr ys /\
      List.length ys = List.length xs /\
      forall i x, nth_error xs i = Some x ->
                  exists y, nth_error ys i = Some y /\ f x = inr y.
Proof.
  intros A B f xs. induction xs as [ | x xs IH ]; intros Hall.
  - exists []. repeat split; auto. intros [ | i] x; discriminate.
  - destruct (Hall x (or_introl eq_refl)) as [y Hy].
    destruct IH as (ys & Hys & Hlen & Hnth).
    { intros x' Hx'. apply Hall. now right. }
    exists (y :: ys). cbn [map_throwing]. rewrite Hy, Hys.
    repeat split; cbn [List.length]; auto.
    intros [ | i] x'; cbn [nth_error].
    + intros E. inversion E; subst x'. eauto.
    + apply Hnth.
Qed.

(** With a message and a history free of [null] entries, the chat handler
    sends exactly one request, made of the system prompt, one message per
    history entry and the user's message, and relays the vendor's answer. *)
Lemma post_chat_runs :
  forall req w message history,
    present (get "message" (body req)) = Some message ->
    get "chatHistory" (body req) = Some (JArr history) ->
    ~ In JNull history ->
    exists forwarded,
      map_throwing history_entry history = inr forwarded /\
      let rq :=
        CompletionRequest
          (ChatMessage (Some (JStr "system")) (Some (JStr SYSTEM_PROMPT))
             :: forwarded ++ [ChatMessage (Some (JStr "user")) (Some message)])
          "llama3-8b-8192" 0.7 512 in
      post_chat req w =
      (Returns
         match groq w rq with
         | inl e => Response 500 (message_and_error "Chat error" e)
         | inr c =>
             Response 200
               (Json (JObj [("response",
                             JStr (or_fallback (first_content c)
                                     "No response."))]))
         end,
       log_call rq w).
Proof.
  intros req w message history Hm Hh Hnn.
  destruct (map_throwing_total _ _ history_entry history)
    as (forwarded & Hmap & _).
  { intros m Hin. apply history_entry_total. congruence. }
  exists forwarded. split; auto. cbv zeta.
  unfold post_chat. rewrite Hm, Hh. cbn [history_map]. rewrite Hmap.
  unfold try_catch, bind, lift, ret, groq_chat_completions_create.
  cbn [app].
  destruct (groq w _); reflexivity.
Qed.


(** C3. The profile fetch does not report the underlying error: with the
    store unreachable (error message ["connection lost"]) it answers 500
    with the body [{ message: 'Server error' }], which has no [error] field
    and carries the error's message in no field at all. *)
Theorem get_user_profile_drops_error_message :
  store_fault Sample.disconnected = Some (Error "connection lost") /\
  exists r,
    get_user_profile (Request [("userId", JStr "u1")] []) Sample.disconnected
      = (Returns r, Sample.disconnected) /\
    status r = 500 /\
    json r = Json (JObj [("message", JStr "Server error")]) /\
    payload_field "error" (json r) = None /\
    forall k, payload_field k (json r) <> Some (JStr "connection lost").
Proof.
  split; [reflexivity | ].
  eexists. split; [reflexivity | ].
  cbn [status json]. repeat split.
  intros k. unfold message_only, payload_field. cbn [get].
  destruct (String.eqb k "message"); discriminate.
Qed.

(** The sibling handlers on the same store outage: the underlying message is
    attached as the [error] field. *)
Example sibling_handlers_attach_error_message :
  put_user_profile Sample.defaults
    (Request [("userId", JStr "u1")] [("name", JStr "Anna")])
    Sample.disconnected
  = (Returns
       (Response 500
          (Json (JObj [("message", JStr "Server error");
                       ("error", JStr "connection lost")]))),
     Sample.disconnected) /\
  get_reminders (Request [("userId", JStr "u1")] []) Sample.disconnected
  = (Returns
       (Response 500
          (Json (JObj [("message", JStr "Server error");
                       ("error", JStr "connection lost")]))),
     Sample.disconnected).
Proof. split; reflexivity. Qed.

(* ===================================================================== *)
(** ** Profile fetch and partial update *)
(* ===================================================================== *)

(** Counterexample to C4 as stated.  A [userId] parameter that is present
    but empty is rejected like an absent one: the request [GET /api/user/profile?userId=] on a store with
    no record under the empty key is answered 400, not 404. *)
Lemma get_user_profile_empty_userId :
  get "userId" (query (Request [("userId", JStr "")] [])) = Some (JStr "") /\
  store_fault Sample.populated = None /\
  find (has_userId (JStr "")) (users Sample.populated) = None /\
  exists r,
    get_user_profile (Request [("userId", JStr "")] []) Sample.populated
      = (Returns r, Sample.populated) /\
    status r = 400 /\
    status r <> 404.
Proof.
  repeat split. eexists. split; [reflexivity | ].
  split; [reflexivity | discriminate].
Qed.

(** C4 (amended). With the store reachable, the profile fetch never changes
    the store and answers: 400 when the [userId] query parameter is absent
    or empty (in general, falsy); otherwise 404 when no record has that
    [userId]; otherwise 200 with the first stored record that has that
    [userId], unchanged. *)
Theorem get_user_profile_cases :
  forall req w,
    store_fault w = None ->
    exists r,
      get_user_profile req w = (Returns r, w) /\
      (get "userId" (query req) = None -> status r = 400) /\
      (get "userId" (query req) = Some (JStr "") -> status r = 400) /\
      (truthy (get "userId" (query req)) = false -> status r = 400) /\
      (forall userId,
         present (get "userId" (query req)) = Some userId ->
         find (has_userId userId) (users w) = None ->
         status r = 404) /\
      (forall userId d,
         present (get "userId" (query req)) = Some userId ->
         find (has_userId userId) (users w) = Some d ->
         r = Response 200 (Json (JObj d)) /\
         In d (users w) /\ get "userId" d = Some userId).
Proof.
  intros req w Hf.
  assert (Hfalsy : truthy (get "userId" (query req)) = false ->
                   get_user_profile req w
                   = (Returns (Response 400 (message_only "userId is required")),
                      w)).
  { intros H. unfold get_user_profile. now rewrite (present_none _ H). }
  assert (Hrun : forall userId,
             present (get "userId" (query req)) = Some userId ->
             get_user_profile req w
             = (Returns
                  match find (has_userId userId) (users w) with
                  | None => Response 404 (message_only "User not found")
                  | Some d => Response 200 (Json (JObj d))
                  end, w)).
  { intros userId Hu. unfold get_user_profile. rewrite Hu.
    unfold try_catch, bind, User_findOne, store_call. rewrite Hf.
    destruct (find _ (users w)); reflexivity. }
  destruct (present (get "userId" (query req))) as [userId | ] eqn:Hp.
  - destruct (present_some _ _ Hp) as [Hget Htruthy].
    eexists. split; [apply (Hrun userId eq_refl) | ].
    rewrite Hget. rewrite Hget in Hp.
    split; [discriminate | ].
    split; [intros E; rewrite E in Htruthy; discriminate | ].
    split; [congruence | ].
    split; intros u; [ | intros d ]; intros Hu Hfind;
      inversion Hu; subst u; rewrite Hfind.
    + reflexivity.
    + split; [reflexivity | ].
      apply find_some in Hfind. split; [tauto | ].
      now apply has_userId_eq.
  - assert (Hfalse : truthy (get "userId" (query req)) = false).
    { unfold present in Hp.
      destruct (truthy (get "userId" (query req))) eqn:E; auto.
      destruct (get "userId" (query req)); discriminate. }
    eexists. split; [apply (Hfalsy Hfalse) | ].
    cbn [status]. repeat split; auto; intros; discriminate.
Qed.

Lemma get_user_profile_cases_witness :
  exists r,
    get_user_profile (Request [("userId", JStr "u2")] []) Sample.populated
      = (Returns r, Sample.populated) /\
    r = Response 200 (Json (JObj Sample.ben)).
Proof.
  destruct (get_user_profile_cases (Request [("userId", JStr "u2")] [])
              Sample.populated eq_refl)
    as (r & Hrun & _ & _ & _ & _ & Hfound).
  exists r. split; [exact Hrun | ].
  apply (Hfound (JStr "u2") Sample.ben); reflexivity.
Defined.

Lemma get_not_key : forall k o, ~ In k (map fst o) -> get k o = None.
Proof.
  intros k o. induction o as [ | [k' v'] o IH ]; simpl; intros H; auto.
  destruct (String.eqb_spec k k') as [-> | Hne]; [tauto | ].
  apply IH. tauto.
Qed.

(** On an object without repeated keys, the last write for a key is the
    only one. *)
Lemma get_rev_unique_keys :
  forall k o, NoDup (map fst o) -> get k (rev o) = get k o.
Proof.
  intros k o. induction o as [ | [k' v'] o IH ]; simpl; intros Hnd; auto.
  inversion Hnd as [ | ? ? Hout Hnd' ]; subst.
  rewrite get_app, IH by assumption. simpl.
  destruct (String.eqb_spec k k') as [-> | Hne].
  - now rewrite get_not_key.
  - destruct (get k o); reflexivity.
Qed.

(** Counterexample to C5 as stated.  The partial update treats an empty
    [userId] like an absent one: the request [PUT /api/user/profile?userId=] on a store with no record under
    the empty key is answered 400, not 404. *)
Lemma put_user_profile_empty_userId :
  get "userId" (query (Request [("userId", JStr "")] [("name", JStr "Anna")]))
    = Some (JStr "") /\
  store_fault Sample.populated = None /\
  find (has_userId (JStr "")) (users Sample.populated) = None /\
  exists r,
    put_user_profile Sample.defaults
      (Request [("userId", JStr "")] [("name", JStr "Anna")]) Sample.populated
      = (Returns r, Sample.populated) /\
    status r = 400 /\
    status r <> 404.
Proof.
  repeat split. eexists. split; [reflexivity | ].
  split; [reflexivity | discriminate].
Qed.

(** C5 (amended). With the store reachable, the partial update answers: 400
    when the [userId] query parameter is absent or empty (in general,
    falsy), and 404 when it is given and no record has that [userId], the
    store staying as it was in both cases; otherwise the body's fields are
    written into the first record with that [userId], where it stands, the
    fields the body does not name keep their values, every other record is
    untouched, and the answer is 200 with the updated record. *)
Theorem put_user_profile_cases :
  forall defaults req w,
    store_fault w = None ->
    exists r w',
      put_user_profile defaults req w = (Returns r, w') /\
      (get "userId" (query req) = None -> status r = 400 /\ w' = w) /\
      (get "userId" (query req) = Some (JStr "") -> status r = 400 /\ w' = w) /\
      (truthy (get "userId" (query req)) = false -> status r = 400 /\ w' = w) /\
      (forall userId,
         present (get "userId" (query req)) = Some userId ->
         find (has_userId userId) (users w) = None ->
         status r = 404 /\ w' = w) /\
      (forall userId d,
         present (get "userId" (query req)) = Some userId ->
         find (has_userId userId) (users w) = Some d ->
         exists pre post,
           users w = pre ++ d :: post /\
           (forall x, In x pre -> has_userId userId x = false) /\
           r = Response 200 (Json (JObj (apply_set (body req) d))) /\
           w' = set_users (pre ++ apply_set (body req) d :: post) w /\
           (forall k, get k (body req) = None ->
                      get k (apply_set (body req) d) = get k d) /\
           (NoDup (map fst (body req)) ->
            forall k v, get k (body req) = Some v ->
                        get k (apply_set (body req) d) = Some v)).
Proof.
  intros defaults req w Hf.
  destruct (present (get "userId" (query req))) as [userId | ] eqn:Hp.
  - destruct (present_some _ _ Hp) as [Hget Htruthy].
    assert (Hrun : put_user_profile defaults req w
                   = match update_first (has_userId userId)
                             (apply_set (body req)) (users w) with
                     | Some (d, us) =>
                         (Returns (Response 200 (Json (JObj d))), set_users us w)
                     | None =>
                         (Returns (Response 404 (message_only "User not found")),
                          w)
                     end).
    { unfold put_user_profile. rewrite Hp.
      unfold try_catch, bind, User_findOneAndUpdate, store_call. rewrite Hf.
      destruct (update_first _ _ (users w)) as [[d us] | ]; reflexivity. }
    destruct (find (has_userId userId) (users w)) as [d | ] eqn:Hfind.
    + destruct (find_some_split _ _ _ Hfind) as (pre & post & Hl & Hd & Hpre).
      rewrite Hl, update_first_in_place in Hrun by assumption.
      do 2 eexists. split; [exact Hrun | ].
      rewrite Hget.
      split; [discriminate | ].
      split; [intros E; rewrite E in Htruthy; discriminate | ].
      split; [congruence | ].
      split; [intros u Hu Hnone; inversion Hu; subst u; congruence | ].
      intros u d0 Hu Hd0. inversion Hu; subst u.
      rewrite Hfind in Hd0. inversion Hd0; subst d0.
      exists pre, post.
      repeat split; auto.
      * intros k Hk. now apply get_apply_set_untouched.
      * intros Hnd k v Hk.
        now rewrite get_apply_set, get_rev_unique_keys, Hk.
    + rewrite update_first_no_match in Hrun by assumption.
      do 2 eexists. split; [exact Hrun | ].
      rewrite Hget. cbn [status].
      split; [discriminate | ].
      split; [intros E; rewrite E in Htruthy; discriminate | ].
      split; [congruence | ].
      split; [auto | ].
      intros u d Hu Hd. inversion Hu; subst u. congruence.
  - assert (Hfalse : truthy (get "userId" (query req)) = false).
    { unfold present in Hp.
      destruct (truthy (get "userId" (query req))) eqn:E; auto.
      destruct (get "userId" (query req)); discriminate. }
    exists (Response 400 (message_only "userId is required")), w.
    split.
    { unfold put_user_profile. now rewrite (present_none _ Hfalse). }
    cbn [status]. repeat split; auto; intros; discriminate.
Qed.

Lemma put_user_profile_cases_witness :
  exists r w',
    put_user_profile Sample.defaults
      (Request [("userId", JStr "u2")] [("name", JStr "Benjamin")])
      Sample.populated = (Returns r, w') /\
    exists pre post,
      users Sample.populated = pre ++ Sample.ben :: post /\
      r = Response 200
            (Json (JObj (apply_set [("name", JStr "Benjamin")] Sample.ben))) /\
      w' = set_users
             (pre ++ apply_set [("name", JStr "Benjamin")] Sample.ben :: post)
             Sample.populated.
Proof.
  destruct (put_user_profile_cases Sample.defaults
              (Request [("userId", JStr "u2")] [("name", JStr "Benjamin")])
              Sample.populated eq_refl)
    as (r & w' & Hrun & _ & _ & _ & _ & Hfound).
  exists r, w'. split; [exact Hrun | ].
  destruct (Hfound (JStr "u2") Sample.ben eq_refl eq_refl)
    as (pre & post & Hl & _ & Hr & Hw & _).
  exists pre, post. auto.
Defined.

Example put_user_profile_sample :
  put_user_profile Sample.defaults
    (Request [("userId", JStr "u2")] [("name", JStr "Benjamin")])
    Sample.populated
  = (Returns
       (Response 200
          (Json (JObj [("userId", JStr "u2"); ("name", JStr "Benjamin");
                       ("email", JStr "ben@example.org")]))),
     set_users
       [Sample.ann;
        [("userId", JStr "u2"); ("name", JStr "Benjamin");
         ("email", JStr "ben@example.org")]]
       Sample.populated).
Proof. reflexivity. Qed.

(* ===================================================================== *)
(** ** Input validation *)
(* ===================================================================== *)

(** C6. Whenever the [symptoms] field of the body is not a list or is an
    empty list, whatever else the body holds and whatever the vendor would
    do, the symptom checker answers 400 and the world is left as it was: in
    particular no request is sent to the vendor. *)
Theorem symptom_checker_rejects_without_list :
  forall req w,
    ((forall items, get "symptoms" (body req) <> Some (JArr items)) \/
     get "symptoms" (body req) = Some (JArr [])) ->
    post_symptom_checker_identify req w
      = (Returns (Response 400 (message_only "Symptoms array required")), w) /\
    groq_calls
      (snd (post_symptom_checker_identify req w)) = groq_calls w.
Proof.
  intros req w H.
  assert (Hrun : post_symptom_checker_identify req w
                 = (Returns
                      (Response 400 (message_only "Symptoms array required")),
                    w)).
  { unfold post_symptom_checker_identify.
    destruct H as [Hnot | Hempty].
    - destruct (get "symptoms" (body req)) as [[ | | | | items | ] | ];
        try reflexivity.
      exfalso. now apply (Hnot items).
    - rewrite Hempty. reflexivity. }
  rewrite Hrun. auto.
Qed.

Lemma symptom_checker_rejects_without_list_witness :
  post_symptom_checker_identify
    (Request [] [("symptoms", JArr []); ("age", JNum 40)]) Sample.populated
  = (Returns (Response 400 (message_only "Symptoms array required")),
     Sample.populated) /\
  groq_calls
    (snd (post_symptom_checker_identify
            (Request [] [("symptoms", JArr []); ("age", JNum 40)])
            Sample.populated))
  = groq_calls Sample.populated.
Proof.
  apply (symptom_checker_rejects_without_list
           (Request [] [("symptoms", JArr []); ("age", JNum 40)])
           Sample.populated).
  right. reflexivity.
Defined.

Example symptom_checker_rejects_string :
  post_symptom_checker_identify
    (Request [] [("symptoms", JStr "cough")]) Sample.populated
  = (Returns (Response 400 (message_only "Symptoms array required")),
     Sample.populated).
Proof. reflexivity. Qed.

Example symptom_checker_accepts_list :
  post_symptom_checker_identify
    (Request [] [("symptoms", JArr [JStr "cough"; JStr "fever"])])
    Sample.populated
  = (Returns (Response 200 (Json (JObj [("result", JStr "Drink water.")]))),
     log_call
       (CompletionRequest
          [ChatMessage (Some (JStr "user"))
             (Some (JStr "Given these symptoms: cough, fever, list possible medical conditions and advice."))]
          "llama3-8b-8192" 0.7 1024)
       Sample.populated).
Proof. reflexivity. Qed.

(** C7. A chat request whose body omits [chatHistory] is handled exactly
    like a request with the same [message] and [chatHistory: []], for every
    state of the world and every behaviour of the vendor: same response and
    same resulting world, the log of vendor requests included. *)
Theorem chat_history_default :
  forall req req' w,
    get "message" (body req) = get "message" (body req') ->
    get "chatHistory" (body req) = None ->
    get "chatHistory" (body req') = Some (JArr []) ->
    post_chat req w = post_chat req' w.
Proof.
  intros req req' w Hm Hnone Hempty.
  unfold post_chat. now rewrite Hm, Hnone, Hempty.
Qed.

Lemma chat_history_default_witness :
  post_chat (Request [] [("message", JStr "I have a headache")])
    Sample.populated
  = post_chat
      (Request [] [("message", JStr "I have a headache");
                   ("chatHistory", JArr [])])
      Sample.populated.
Proof.
  apply (chat_history_default
           (Request [] [("message", JStr "I have a headache")])
           (Request [] [("message", JStr "I have a headache");
                        ("chatHistory", JArr [])])
           Sample.populated); reflexivity.
Defined.

(** C8. The three writes require a non-empty [userId]: when the [userId]
    supplied to the profile create-or-replace (in the body), to the profile
    partial update (in the query) or to the reminder creation (in the body)
    is absent or the empty string, the handler answers 400 and the world,
    the store included, is left as it was. *)
Theorem writes_require_userId :
  forall defaults cast req_post req_put req_reminder w,
    absent_or_empty (get "userId" (body req_post)) ->
    absent_or_empty (get "userId" (query req_put)) ->
    absent_or_empty (get "userId" (body req_reminder)) ->
    post_user_profile defaults req_post w
      = (Returns (Response 400 (message_only "userId, name, email required")),
         w) /\
    put_user_profile defaults req_put w
      = (Returns (Response 400 (message_only "userId is required")), w) /\
    post_reminders cast req_reminder w
      = (Returns
           (Response 400 (message_only "userId, title, dueDate required")),
         w).
Proof.
  intros defaults cast req_post req_put req_reminder w Hpost Hput Hrem.
  apply absent_or_empty_present in Hpost, Hput, Hrem.
  unfold post_user_profile, put_user_profile, post_reminders.
  now rewrite Hpost, Hput, Hrem.
Qed.

Lemma writes_require_userId_witness :
  post_user_profile Sample.defaults
    (Request [] [("name", JStr "Cy"); ("email", JStr "cy@example.org")])
    Sample.populated
    = (Returns (Response 400 (message_only "userId, name, email required")),
       Sample.populated) /\
  put_user_profile Sample.defaults
    (Request [("userId", JStr "")] [("name", JStr "Cy")]) Sample.populated
    = (Returns (Response 400 (message_only "userId is required")),
       Sample.populated) /\
  post_reminders Sample.cast_dueDate
    (Request [] [("userId", JStr ""); ("title", JStr "Pills");
                 ("dueDate", JNum 500)])
    Sample.populated
    = (Returns
         (Response 400 (message_only "userId, title, dueDate required")),
       Sample.populated).
Proof.
  apply (writes_require_userId Sample.defaults Sample.cast_dueDate
           (Request [] [("name", JStr "Cy"); ("email", JStr "cy@example.org")])
           (Request [("userId", JStr "")] [("name", JStr "Cy")])
           (Request [] [("userId", JStr ""); ("title", JStr "Pills");
                        ("dueDate", JNum 500)])
           Sample.populated).
  - left. reflexivity.
  - right. reflexivity.
  - right. reflexivity.
Defined.

(** C9. A required field that is present but empty is rejected like an
    absent one: the profile create-or-replace with [name] or [email] equal
    to the empty string answers 400, and the chat with [message] equal to
    the empty string answers 400; in both cases the world is left as it
    was, so neither the store nor the vendor is touched. *)
Theorem empty_required_field_rejected :
  forall defaults req_profile req_chat w,
    (get "name" (body req_profile) = Some (JStr "") \/
     get "email" (body req_profile) = Some (JStr "")) ->
    get "message" (body req_chat) = Some (JStr "") ->
    post_user_profile defaults req_profile w
      = (Returns (Response 400 (message_only "userId, name, email required")),
         w) /\
    post_chat req_chat w
      = (Returns (Response 400 (message_only "Message is required")), w).
Proof.
  intros defaults req_profile req_chat w Hprofile Hchat. split.
  - unfold post_user_profile.
    destruct (present (get "userId" (body req_profile))); [ | reflexivity ].
    destruct Hprofile as [H | H]; rewrite H; cbn [present truthy String.eqb negb].
    + reflexivity.
    + destruct (present (get "name" (body req_profile))); reflexivity.
  - unfold post_chat. rewrite Hchat. reflexivity.
Qed.

Lemma empty_required_field_rejected_witness :
  post_user_profile Sample.defaults
    (Request [] [("userId", JStr "u3"); ("name", JStr "");
                 ("email", JStr "cy@example.org")])
    Sample.populated
    = (Returns (Response 400 (message_only "userId, name, email required")),
       Sample.populated) /\
  post_chat (Request [] [("message", JStr ""); ("chatHistory", JArr [])])
    Sample.populated
    = (Returns (Response 400 (message_only "Message is required")),
       Sample.populated).
Proof.
  apply (empty_required_field_rejected Sample.defaults
           (Request [] [("userId", JStr "u3"); ("name", JStr "");
                        ("email", JStr "cy@example.org")])
           (Request [] [("message", JStr ""); ("chatHistory", JArr [])])
           Sample.populated).
  - left. reflexivity.
  - reflexivity.
Defined.

(** C10. For a chat request with a message and a history of objects, the
    vendor receives one request whose [messages] are the system prompt, one
    message per history entry in order, and the user's message.  The content
    forwarded for an entry is the entry's [message] field when that field is
    truthy (for a string: non-empty) and its [content] field otherwise; an
    entry that carries both fields, with a non-empty [message], contributes
    its [message] value. *)
Theorem chat_history_forwarding :
  forall req w message history,
    present (get "message" (body req)) = Some message ->
    get "chatHistory" (body req) = Some (JArr history) ->
    ~ In JNull history ->
    exists r forwarded,
      post_chat req w
        = (Returns r,
           log_call
             (CompletionRequest
                (ChatMessage (Some (JStr "system")) (Some (JStr SYSTEM_PROMPT))
                   :: forwarded
                   ++ [ChatMessage (Some (JStr "user")) (Some message)])
                "llama3-8b-8192" 0.7 512)
             w) /\
      List.length forwarded = List.length history /\
      forall i entry,
        nth_error history i = Some (JObj entry) ->
        exists sent,
          nth_error forwarded i = Some sent /\
          role sent = get "role" entry /\
          content sent =
            (if truthy (get "message" entry) then get "message" entry
             else get "content" entry) /\
          (forall s, get "message" entry = Some (JStr s) -> s <> "" ->
                     content sent = Some (JStr s)) /\
          (absent_or_empty (get "message" entry) ->
           content sent = get "content" entry).
Proof.
  intros req w message history Hm Hh Hnn.
  destruct (post_chat_runs req w message history Hm Hh Hnn)
    as (forwarded & Hmap & Hrun).
  cbv zeta in Hrun.
  destruct (map_throwing_total _ _ history_entry history)
    as (forwarded' & Hmap' & Hlen & Hnth).
  { intros m Hin. apply history_entry_total. congruence. }
  rewrite Hmap in Hmap'. inversion Hmap'; subst forwarded'.
  eexists. exists forwarded. split; [exact Hrun | ]. split; [exact Hlen | ].
  intros i entry Hi.
  destruct (Hnth i (JObj entry) Hi) as (sent & Hsent & Hentry).
  rewrite history_entry_object in Hentry. inversion Hentry; subst sent.
  eexists. split; [exact Hsent | ]. cbn [role content].
  split; [reflexivity | ]. split; [reflexivity | ]. split.
  - intros s Hs Hne. rewrite Hs. cbn [truthy].
    destruct (String.eqb_spec s ""); [contradiction | reflexivity].
  - intros [-> | ->]; reflexivity.
Qed.

Lemma chat_history_forwarding_witness :
  exists r forwarded,
    post_chat
      (Request []
         [("message", JStr "And now?");
          ("chatHistory",
           JArr [JObj [("role", JStr "user"); ("message", JStr "typed");
                       ("content", JStr "stored")];
                 JObj [("role", JStr "assistant"); ("content", JStr "Rest.")]])])
      Sample.populated
      = (Returns r,
         log_call
           (CompletionRequest
              (ChatMessage (Some (JStr "system")) (Some (JStr SYSTEM_PROMPT))
                 :: forwarded
                 ++ [ChatMessage (Some (JStr "user")) (Some (JStr "And now?"))])
              "llama3-8b-8192" 0.7 512)
           Sample.populated) /\
    nth_error forwarded 0
      = Some (ChatMessage (Some (JStr "user")) (Some (JStr "typed"))) /\
    nth_error forwarded 1
      = Some (ChatMessage (Some (JStr "assistant")) (Some (JStr "Rest."))).
Proof.
  destruct (chat_history_forwarding
              (Request []
                 [("message", JStr "And now?");
                  ("chatHistory",
                   JArr [JObj [("role", JStr "user"); ("message", JStr "typed");
                               ("content", JStr "stored")];
                         JObj [("role", JStr "assistant");
                               ("content", JStr "Rest.")]])])
              Sample.populated (JStr "And now?") _ eq_refl eq_refl)
    as (r & forwarded & Hrun & _ & Hnth).
  { simpl. intros [H | [H | []]]; discriminate. }
  exists r, forwarded. split; [exact Hrun | ]. split.
  - destruct (Hnth 0 _ eq_refl) as ([ro co] & Hsent & Hrole & Hcontent & _).
    cbn in Hrole, Hcontent. now rewrite Hsent, Hrole, Hcontent.
  - destruct (Hnth 1 _ eq_refl) as ([ro co] & Hsent & Hrole & Hcontent & _).
    cbn in Hrole, Hcontent. now rewrite Hsent, Hrole, Hcontent.
Defined.

Example chat_forwards_message_over_content :
  post_chat
    (Request []
       [("message", JStr "And now?");
        ("chatHistory",
         JArr [JObj [("role", JStr "user"); ("message", JStr "typed");
                     ("content", JStr "stored")]])])
    Sample.populated
  = (Returns (Response 200 (Json (JObj [("response", JStr "Drink water.")]))),
     log_call
       (CompletionRequest
          [ChatMessage (Some (JStr "system")) (Some (JStr SYSTEM_PROMPT));
           ChatMessage (Some (JStr "user")) (Some (JStr "typed"));
           ChatMessage (Some (JStr "user")) (Some (JStr "And now?"))]
          "llama3-8b-8192" 0.7 512)
       Sample.populated).
Proof. reflexivity. Qed.

(* ===================================================================== *)
(** ** Further runs *)
(* ===================================================================== *)

(** Fetching an unknown profile answers 404; after creating it the fetch
    returns the created fields, with the schema default filled in. *)
Example fetch_after_create :
  get_user_profile (Request [("userId", JStr "u9")] []) Sample.empty
    = (Returns (Response 404 (message_only "User not found")), Sample.empty) /\
  exists w,
    snd (post_user_profile Sample.defaults
           (Request [] [("userId", JStr "u9"); ("name", JStr "Ida");
                        ("email", JStr "ida@example.org")])
           Sample.empty) = w /\
    get_user_profile (Request [("userId", JStr "u9")] []) w
      = (Returns
           (Response 200
              (Json (JObj [("userId", JStr "u9"); ("name", JStr "Ida");
                           ("email", JStr "ida@example.org");
                           ("plan", JStr "free")]))),
         w).
Proof. split; [reflexivity | eexists; split; reflexivity]. Qed.

(** The vendor being down, the chat answers 500 with the vendor's message
    attached, after one request was sent. *)
Example chat_vendor_down :
  exists rq,
    post_chat (Request [] [("message", JStr "Hello")]) Sample.vendor_outage
    = (Returns
         (Response 500
            (Json (JObj [("message", JStr "Chat error");
                         ("error", JStr "fetch failed")]))),
       log_call rq Sample.vendor_outage).
Proof. eexists. reflexivity. Qed.

(** A [null] entry in the history makes the [map] callback throw: the chat
    answers 500 and no request is sent. *)
Example chat_null_history_entry :
  post_chat
    (Request [] [("message", JStr "Hello"); ("chatHistory", JArr [JNull])])
    Sample.populated
  = (Returns
       (Response 500
          (Json (JObj [("message", JStr "Chat error");
                       ("error",
                        JStr "Cannot read properties of null (reading 'role')")]))),
     Sample.populated).
Proof. reflexivity. Qed.

(** A reminder whose due date the schema cannot cast is not stored. *)
Example reminder_invalid_due_date :
  post_reminders Sample.cast_dueDate
    (Request [] [("userId", JStr "u1"); ("title", JStr "Pills");
                 ("dueDate", JStr "soon")])
    Sample.populated
  = (Returns
       (Response 500
          (Json (JObj [("message", JStr "Server error");
                       ("error", JStr "Cast to date failed for path dueDate")]))),
     bump_id Sample.populated).
Proof. reflexivity. Qed.

(** A created reminder is answered 201 and shows up in the listing. *)
Example reminder_create_then_list :
  exists w,
    post_reminders Sample.cast_dueDate
      (Request [] [("userId", JStr "u1"); ("title", JStr "Scan");
                   ("dueDate", JNum 150)])
      Sample.populated
    = (Returns
         (Response 201
            (ReminderDoc (Reminder 3 (JStr "u1") (JStr "Scan") 150 None))),
       w) /\
    get_reminders (Request [("userId", JStr "u1")] []) w
    = (Returns
         (Response 200
            (ReminderDocs
               [Sample.checkup;
                Reminder 3 (JStr "u1") (JStr "Scan") 150 None;
                Sample.pills])),
       w).
Proof. eexists. split; reflexivity. Qed.

(* ===================================================================== *)
(** ** Every handler answers *)
(* ===================================================================== *)

(** Unfolds a handler down to the store and vendor calls. *)
Ltac run_handler :=
  unfold get_user_profile, post_user_profile, put_user_profile,
    get_reminders, post_reminders, post_symptom_checker_identify, post_chat,
    try_catch, bind, lift, ret, throw, User_findOne, User_findOneAndUpdate,
    Reminder_find_sort, new_Reminder, save, store_call,
    groq_chat_completions_create.

Lemma set_users_same : forall w, set_users (users w) w = w.
Proof. intros [us rs n f g calls]. reflexivity. Qed.

(** X1.  No handler lets an exception escape, whatever the request, the state of
    the store and the behaviour of the vendor: each one returns a response,
    and its status is one of the few the handler can produce. *)
Theorem handlers_always_respond :
  forall defaults cast req w,
    (exists r w', get_user_profile req w = (Returns r, w') /\
                  In (status r) [200; 400; 404; 500]) /\
    (exists r w', post_user_profile defaults req w = (Returns r, w') /\
                  In (status r) [200; 400; 500]) /\
    (exists r w', put_user_profile defaults req w = (Returns r, w') /\
                  In (status r) [200; 400; 404; 500]) /\
    (exists r w', get_reminders req w = (Returns r, w') /\
                  In (status r) [200; 400; 500]) /\
    (exists r w', post_reminders cast req w = (Returns r, w') /\
                  In (status r) [201; 400; 500]) /\
    (exists r w', post_symptom_checker_identify req w = (Returns r, w') /\
                  In (status r) [200; 400; 500]) /\
    (exists r w', post_chat req w = (Returns r, w') /\
                  In (status r) [200; 400; 500]).
Proof.
  intros defaults cast req w.
  repeat match goal with |- _ /\ _ => split end; run_handler.
  - destruct (present (get "userId" (query req)));
      [ destruct (store_fault w); [ | destruct (find _ (users w)) ] | ];
      do 2 eexists; (split; [reflexivity | simpl; tauto]).
  - destruct (present (get "userId" (body req)));
      [ destruct (present (get "name" (body req)));
        [ destruct (present (get "email" (body req)));
          [ destruct (store_fault w);
            [ | destruct (update_first _ _ (users w)) as [[d us] | ] ] | ] | ] | ];
      do 2 eexists; (split; [reflexivity | simpl; tauto]).
  - destruct (present (get "userId" (query req)));
      [ destruct (store_fault w);
        [ | destruct (update_first _ _ (users w)) as [[d us] | ] ] | ];
      do 2 eexists; (split; [reflexivity | simpl; tauto]).
  - destruct (present (get "userId" (query req)));
      [ destruct (store_fault w) | ];
      do 2 eexists; (split; [reflexivity | simpl; tauto]).
  - destruct (present (get "userId" (body req)));
      [ destruct (present (get "title" (body req)));
        [ destruct (present (get "dueDate" (body req))) as [due | ];
          [ cbn [d_dueDate]; destruct (cast due);
            [ | cbn [store_fault bump_id]; destruct (store_fault w) ] | ] | ] | ];
      do 2 eexists; (split; [reflexivity | simpl; tauto]).
  - destruct (as_array (get "symptoms" (body req))) as [[ | item items] | ];
      [ | destruct (groq w _) | ];
      do 2 eexists; (split; [reflexivity | simpl; tauto]).
  - destruct (present (get "message" (body req)));
      [ destruct (history_map _); [ | destruct (groq w _) ] | ];
      do 2 eexists; (split; [reflexivity | simpl; tauto]).
Qed.

(* ===================================================================== *)
(** ** What a handler leaves alone *)
(* ===================================================================== *)

(** X2.  The two read handlers never change anything: not on success, not on a
    rejected request, not while the store is unreachable. *)
Theorem reads_change_nothing :
  forall req w,
    snd (get_user_profile req w) = w /\ snd (get_reminders req w) = w.
Proof.
  intros req w. split; run_handler.
  - destruct (present (get "userId" (query req)));
      [ destruct (store_fault w); [ | destruct (find _ (users w)) ] | ];
      reflexivity.
  - destruct (present (get "userId" (query req)));
      [ destruct (store_fault w) | ]; reflexivity.
Qed.

(** X3.  Each handler touches its own collaborator only: the profile writes
    leave the reminders and the vendor alone, the reminder creation leaves
    the profiles and the vendor alone, and the two completion handlers leave
    the whole store alone. *)
Theorem handlers_stay_in_their_lane :
  forall defaults cast req w,
    (let w' := snd (post_user_profile defaults req w) in
     reminders w' = reminders w /\ groq_calls w' = groq_calls w) /\
    (let w' := snd (put_user_profile defaults req w) in
     reminders w' = reminders w /\ groq_calls w' = groq_calls w) /\
    (let w' := snd (post_reminders cast req w) in
     users w' = users w /\ groq_calls w' = groq_calls w) /\
    (let w' := snd (post_symptom_checker_identify req w) in
     users w' = users w /\ reminders w' = reminders w) /\
    (let w' := snd (post_chat req w) in
     users w' = users w /\ reminders w' = reminders w).
Proof.
  intros defaults cast req w. cbv zeta.
  repeat match goal with |- _ /\ _ => split end; run_handler.
  1, 2: destruct (present (get "userId" (body req)));
      [ destruct (present (get "name" (body req)));
        [ destruct (present (get "email" (body req)));
          [ destruct (store_fault w);
            [ | destruct (update_first _ _ (users w)) as [[d us] | ] ] | ] | ] | ];
      reflexivity.
  1, 2: destruct (present (get "userId" (query req)));
      [ destruct (store_fault w);
        [ | destruct (update_first _ _ (users w)) as [[d us] | ] ] | ];
      reflexivity.
  1, 2: destruct (present (get "userId" (body req)));
      [ destruct (present (get "title" (body req)));
        [ destruct (present (get "dueDate" (body req))) as [due | ];
          [ cbn [d_dueDate]; destruct (cast due);
            [ | cbn [store_fault bump_id]; destruct (store_fault w) ] | ] | ] | ];
      reflexivity.
  1, 2: destruct (as_array (get "symptoms" (body req))) as [[ | item items] | ];
      [ | destruct (groq w _) | ]; reflexivity.
  1, 2: destruct (present (get "message" (body req)));
      [ destruct (history_map _); [ | destruct (groq w _) ] | ]; reflexivity.
Qed.

(** X4.  A completion handler sends at most one request per call, and what it
    sends always names the same model and temperature, with a token limit of
    1024 for the symptom checker and 512 for the chat. *)
Theorem at_most_one_vendor_request :
  forall req w,
    (groq_calls (snd (post_symptom_checker_identify req w)) = groq_calls w \/
     exists msgs,
       groq_calls (snd (post_symptom_checker_identify req w))
       = CompletionRequest msgs "llama3-8b-8192" 0.7 1024 :: groq_calls w) /\
    (groq_calls (snd (post_chat req w)) = groq_calls w \/
     exists msgs,
       groq_calls (snd (post_chat req w))
       = CompletionRequest msgs "llama3-8b-8192" 0.7 512 :: groq_calls w).
Proof.
  intros req w. split; run_handler.
  - destruct (as_array (get "symptoms" (body req))) as [[ | item items] | ];
      [ now left | | now left ].
    right. destruct (groq w _); eexists; reflexivity.
  - destruct (present (get "message" (body req))); [ | now left ].
    destruct (history_map _); [ now left | ].
    right. destruct (groq w _); eexists; reflexivity.
Qed.

(* ===================================================================== *)
(** ** Exactly when a request is rejected *)
(* ===================================================================== *)

Lemma present_cases :
  forall x,
    (exists v, present x = Some v /\ truthy x = true) \/
    (present x = None /\ truthy x = false).
Proof.
  intros x. unfold present. destruct (truthy x) eqn:E; [ | now right ].
  left. destruct x as [v | ]; [ | discriminate ]. now exists v.
Qed.

(** X5.  The three handlers keyed by a query parameter answer 400 exactly when
    the [userId] parameter is falsy, whatever the body and whatever the
    state of the store. *)
Theorem query_handlers_reject_exactly :
  forall defaults req w,
    (exists r, fst (get_user_profile req w) = Returns r /\
               (status r = 400 <-> truthy (get "userId" (query req)) = false)) /\
    (exists r, fst (put_user_profile defaults req w) = Returns r /\
               (status r = 400 <-> truthy (get "userId" (query req)) = false)) /\
    (exists r, fst (get_reminders req w) = Returns r /\
               (status r = 400 <-> truthy (get "userId" (query req)) = false)).
Proof.
  intros defaults req w.
  destruct (present_cases (get "userId" (query req)))
    as [(v & Hp & Ht) | (Hp & Ht)]; rewrite Ht;
    repeat match goal with |- _ /\ _ => split end; run_handler; rewrite Hp;
    try (destruct (store_fault w);
         [ | try destruct (find _ (users w));
             try destruct (update_first _ _ (users w)) as [[d us] | ] ]);
    eexists; (split; [reflexivity | cbn [status]; split; congruence]).
Qed.

(** X6.  The two creating handlers answer 400 exactly when one of their three
    required body fields is falsy: absent, [null], [false], [0] or the empty
    string.  A reminder whose [dueDate] is the number [0] is rejected on
    that ground. *)
Theorem body_handlers_reject_exactly :
  forall defaults cast req w,
    (exists r, fst (post_user_profile defaults req w) = Returns r /\
               (status r = 400 <->
                truthy (get "userId" (body req))
                && truthy (get "name" (body req))
                && truthy (get "email" (body req)) = false)) /\
    (exists r, fst (post_reminders cast req w) = Returns r /\
               (status r = 400 <->
                truthy (get "userId" (body req))
                && truthy (get "title" (body req))
                && truthy (get "dueDate" (body req)) = false)).
Proof.
  intros defaults cast req w. split; run_handler.
  - destruct (present_cases (get "userId" (body req)))
      as [(u & Hu & Htu) | (Hu & Htu)];
    destruct (present_cases (get "name" (body req)))
      as [(n & Hn & Htn) | (Hn & Htn)];
    destruct (present_cases (get "email" (body req)))
      as [(e & He & Hte) | (He & Hte)];
    rewrite ?Hu, ?Hn, ?He, ?Htu, ?Htn, ?Hte;
    try (destruct (store_fault w);
         [ | destruct (update_first _ _ (users w)) as [[d us] | ] ]);
    eexists; (split; [reflexivity | cbn; split; congruence]).
  - destruct (present_cases (get "userId" (body req)))
      as [(u & Hu & Htu) | (Hu & Htu)];
    destruct (present_cases (get "title" (body req)))
      as [(t & Hti & Htt) | (Hti & Htt)];
    destruct (present_cases (get "dueDate" (body req)))
      as [(due & Hd & Htd) | (Hd & Htd)];
    rewrite ?Hu, ?Hti, ?Hd, ?Htu, ?Htt, ?Htd;
    try (cbn [d_dueDate]; destruct (cast due);
         [ | cbn [store_fault bump_id]; destruct (store_fault w) ]);
    eexists; (split; [reflexivity | cbn; split; congruence]).
Qed.

(** X7.  The symptom checker answers 400 exactly when [symptoms] is not a
    non-empty array, and the chat exactly when [message] is falsy; the items
    of [symptoms] and the shape of [chatHistory] play no part in it. *)
Theorem completion_handlers_reject_exactly :
  forall req w,
    (exists r, fst (post_symptom_checker_identify req w) = Returns r /\
               (status r = 400 <->
                forall item items,
                  get "symptoms" (body req) <> Some (JArr (item :: items)))) /\
    (exists r, fst (post_chat req w) = Returns r /\
               (status r = 400 <-> truthy (get "message" (body req)) = false)).
Proof.
  intros req w. split; run_handler.
  - destruct (get "symptoms" (body req)) as [[ | | | | [ | item items] | ] | ];
      cbn [as_array];
      try (eexists; split; [reflexivity | cbn [status]; split;
                            [intros _ ? ?; discriminate | reflexivity]]).
    destruct (groq w _); eexists;
      (split; [reflexivity | cbn [status]; split;
               [discriminate | intros H; now elim (H item items)]]).
  - destruct (present_cases (get "message" (body req)))
      as [(v & Hp & Ht) | (Hp & Ht)]; rewrite Hp, Ht;
      [ destruct (history_map _); [ | destruct (groq w _) ] | ];
      eexists; (split; [reflexivity | cbn [status]; split; congruence]).
Qed.

(* ===================================================================== *)
(** ** Profiles: what is stored and what comes back *)
(* ===================================================================== *)

Lemma find_in_place :
  forall (p : doc -> bool) pre d post,
    p d = true -> (forall x, In x pre -> p x = false) ->
    find p (pre ++ d :: post) = Some d.
Proof.
  intros p pre d post Hd. induction pre as [ | a pre IH ]; simpl; intros Hpre.
  - now rewrite Hd.
  - rewrite (Hpre a) by auto. auto.
Qed.

Lemma get_with_defaults :
  forall k defaults d,
    get k (with_defaults defaults d) =
    match get k d with Some v => Some v | None => get k defaults end.
Proof.
  intros k defaults. unfold with_defaults.
  induction defaults as [ | [k' v'] defaults IH ]; intros d; simpl.
  - destruct (get k d); reflexivity.
  - rewrite IH. destruct (get k' d) eqn:Ek'.
    + destruct (get k d) eqn:Ek; auto.
      destruct (String.eqb_spec k k') as [-> | Hne]; auto. congruence.
    + rewrite get_app. destruct (get k d) eqn:Ek; auto. simpl.
      destruct (String.eqb k k'); reflexivity.
Qed.

Lemma omit_keys_subset :
  forall ks o, NoDup (map fst o) -> NoDup (map fst (omit ks o)).
Proof.
  intros ks o. unfold omit. induction o as [ | [k v] o IH ]; simpl; intros H.
  - constructor.
  - inversion H as [ | ? ? Hout Hnd ]; subst.
    destruct (existsb (String.eqb k) ks); simpl; auto.
    constructor; auto.
    intros Hin. apply Hout. apply in_map_iff in Hin.
    destruct Hin as [[k' v'] [Hk Hin]]. simpl in Hk. subst k'.
    apply filter_In in Hin. apply in_map_iff. exists (k, v'). tauto.
Qed.

Lemma omit_not_key :
  forall k ks o, In k ks -> ~ In k (map fst (omit ks o)).
Proof.
  intros k ks o Hk Hin. apply in_map_iff in Hin.
  destruct Hin as [[k' v'] [E Hin]]. simpl in E. subst k'.
  unfold omit in Hin. apply filter_In in Hin. destruct Hin as [_ Hf].
  simpl in Hf. apply negb_true_iff in Hf.
  assert (existsb (String.eqb k) ks = true); [ | congruence ].
  apply existsb_exists. exists k. split; auto. apply String.eqb_refl.
Qed.

(** What the create-or-replace handler writes into a document [d]: the
    posted [name] and [email], every further body field except [userId],
    and nothing else. *)
Lemma profile_update_fields :
  forall req name email d,
    present (get "name" (body req)) = Some name ->
    present (get "email" (body req)) = Some email ->
    let d' := apply_set
                (profile_update name email
                   (omit ["userId"; "name"; "email"] (body req))) d in
    get "userId" d' = get "userId" d /\
    (forall k, get k (body req) = None -> get k d' = get k d) /\
    (NoDup (map fst (body req)) ->
     forall k v, k <> "userId" -> get k (body req) = Some v ->
                 get k d' = Some v).
Proof.
  intros req name email d Hn He. cbv zeta.
  apply present_some in Hn, He. destruct Hn as [Hn _], He as [He _].
  set (rest := omit ["userId"; "name"; "email"] (body req)).
  split; [ | split ].
  - apply get_apply_set_untouched, profile_update_no_userId.
  - intros k Hk. apply get_apply_set_untouched.
    unfold profile_update. simpl.
    destruct (String.eqb_spec k "name") as [-> | Hkn]; [congruence | ].
    destruct (String.eqb_spec k "email") as [-> | Hke]; [congruence | ].
    destruct (String.eqb_spec k "userId") as [-> | Hku].
    { apply get_omit_in. simpl. auto. }
    unfold rest. rewrite get_omit_out; auto.
    simpl. intros [E | [E | [E | []]]]; subst k; congruence.
  - intros Hnd k v Hku Hk.
    assert (Hupd : NoDup (map fst (profile_update name email rest))).
    { unfold profile_update. simpl. constructor; [ | constructor ].
      - simpl. intros [E | Hin]; [discriminate | ].
        revert Hin. apply omit_not_key. simpl. auto.
      - apply omit_not_key. simpl. auto.
      - now apply omit_keys_subset. }
    rewrite get_apply_set, get_rev_unique_keys by assumption.
    unfold profile_update. simpl.
    destruct (String.eqb_spec k "name") as [-> | Hkn]; [congruence | ].
    destruct (String.eqb_spec k "email") as [-> | Hke]; [congruence | ].
    unfold rest. rewrite get_omit_out, Hk; auto.
    simpl. intros [E | [E | [E | []]]]; subst k; congruence.
Qed.

(** X8.  Create, then fetch: after an accepted post, fetching the same [userId]
    answers 200 with exactly the record the post returned, and that record
    carries the posted [userId], [name] and [email]. *)
Theorem fetch_returns_posted_profile :
  forall defaults req req_get w userId name email,
    store_fault w = None ->
    present (get "userId" (body req)) = Some userId ->
    present (get "name" (body req)) = Some name ->
    present (get "email" (body req)) = Some email ->
    get "userId" (query req_get) = Some userId ->
    exists d w',
      post_user_profile defaults req w
        = (Returns (Response 200 (Json (JObj d))), w') /\
      get_user_profile req_get w'
        = (Returns (Response 200 (Json (JObj d))), w') /\
      get "userId" d = Some userId /\
      get "name" d = Some name /\
      get "email" d = Some email.
Proof.
  intros defaults req req_get w userId name email Hf Hu Hn He Hq.
  rewrite (post_user_profile_runs defaults req w userId name email)
    by assumption.
  destruct (present_some _ _ Hu) as [_ Htruthy].
  destruct (present_some _ _ Hn) as [Hname _].
  destruct (present_some _ _ He) as [Hemail _].
  set (upd := profile_update name email
                (omit ["userId"; "name"; "email"] (body req))).
  assert (Hfields : forall d0,
            get "userId" (apply_set upd d0) = get "userId" d0 /\
            get "name" (apply_set upd d0) = Some name /\
            get "email" (apply_set upd d0) = Some email).
  { intros d0. split; [ | split ].
    - apply get_apply_set_untouched, profile_update_no_userId.
    - apply profile_update_name.
    - rewrite get_apply_set. unfold upd, profile_update. simpl.
      rewrite !get_app, get_rev_None by (apply get_omit_in; simpl; auto).
      reflexivity. }
  assert (Hfetch : forall w' d,
            store_fault w' = None -> find (has_userId userId) (users w') = Some d ->
            get_user_profile req_get w'
            = (Returns (Response 200 (Json (JObj d))), w')).
  { intros w' d Hf' Hfind. unfold get_user_profile.
    rewrite Hq. unfold present. rewrite Htruthy.
    unfold try_catch, bind, User_findOne, store_call. now rewrite Hf', Hfind. }
  destruct (find (has_userId userId) (users w)) as [d | ] eqn:Hfind.
  - destruct (find_some_split _ _ _ Hfind) as (pre & post & Hl & Hd & Hpre).
    rewrite Hl, update_first_in_place by assumption.
    destruct (Hfields d) as (Hku & Hkn & Hke).
    assert (Hd' : has_userId userId (apply_set upd d) = true).
    { apply has_userId_eq. rewrite Hku. now apply has_userId_eq. }
    do 2 eexists. split; [reflexivity | ].
    split; [ | split; [now apply has_userId_eq | auto] ].
    apply Hfetch; [exact Hf | ].
    unfold set_users; cbn [users]. now apply find_in_place.
  - rewrite update_first_no_match by assumption. cbv zeta.
    destruct (Hfields [("userId", userId)]) as (Hku & Hkn & Hke).
    set (d := with_defaults defaults (apply_set upd [("userId", userId)])).
    assert (Hd' : has_userId userId d = true).
    { apply has_userId_eq. apply get_with_defaults_kept. now rewrite Hku. }
    exists d. eexists. split; [reflexivity | ].
    split; [ | split; [now apply has_userId_eq | ] ].
    + apply Hfetch; [exact Hf | ].
      unfold set_users; cbn [users].
      rewrite <- (app_nil_r (users w ++ [d])), <- app_assoc. simpl.
      apply find_in_place; auto.
      intros x Hx. now apply (find_none _ _ Hfind).
    + split; now apply get_with_defaults_kept.
Qed.

Lemma fetch_returns_posted_profile_witness :
  exists d w',
    post_user_profile Sample.defaults
      (Request [] [("userId", JStr "u1"); ("name", JStr "Anne");
                   ("email", JStr "anne@example.org")])
      Sample.populated
      = (Returns (Response 200 (Json (JObj d))), w') /\
    get_user_profile (Request [("userId", JStr "u1")] []) w'
      = (Returns (Response 200 (Json (JObj d))), w') /\
    get "userId" d = Some (JStr "u1") /\
    get "name" d = Some (JStr "Anne") /\
    get "email" d = Some (JStr "anne@example.org").
Proof.
  apply (fetch_returns_posted_profile Sample.defaults
           (Request [] [("userId", JStr "u1"); ("name", JStr "Anne");
                        ("email", JStr "anne@example.org")])
           (Request [("userId", JStr "u1")] []) Sample.populated
           (JStr "u1") (JStr "Anne") (JStr "anne@example.org"));
    reflexivity.
Defined.

(** The shape of the store after an accepted post: the record [d] returned
    stands where the first record of that [userId] stood, or at the end when
    there was none. *)
Lemma post_user_profile_shape :
  forall defaults req w userId name email,
    store_fault w = None ->
    present (get "userId" (body req)) = Some userId ->
    present (get "name" (body req)) = Some name ->
    present (get "email" (body req)) = Some email ->
    let upd := profile_update name email
                 (omit ["userId"; "name"; "email"] (body req)) in
    exists pre d post,
      post_user_profile defaults req w
        = (Returns (Response 200 (Json (JObj d))),
           set_users (pre ++ d :: post) w) /\
      (forall x, In x pre -> has_userId userId x = false) /\
      has_userId userId d = true /\
      ((exists d0, users w = pre ++ d0 :: post /\
                   find (has_userId userId) (users w) = Some d0 /\
                   d = apply_set upd d0) \/
       (users w = pre /\ post = [] /\
        find (has_userId userId) (users w) = None /\
        d = with_defaults defaults (apply_set upd [("userId", userId)]))).
Proof.
  intros defaults req w userId name email Hf Hu Hn He upd.
  rewrite (post_user_profile_runs defaults req w userId name email)
    by assumption.
  fold upd.
  assert (Hkeep : forall d, get "userId" (apply_set upd d) = get "userId" d).
  { intros d. apply get_apply_set_untouched, profile_update_no_userId. }
  destruct (find (has_userId userId) (users w)) as [d0 | ] eqn:Hfind.
  - destruct (find_some_split _ _ _ Hfind) as (pre & post & Hl & Hd & Hpre).
    rewrite Hl, update_first_in_place by assumption.
    exists pre, (apply_set upd d0), post. repeat split; auto.
    + apply has_userId_eq. rewrite Hkeep. now apply has_userId_eq.
    + left. exists d0. rewrite <- Hl. auto.
  - rewrite update_first_no_match by assumption. cbv zeta.
    exists (users w), (with_defaults defaults (apply_set upd [("userId", userId)])),
      []. repeat split; auto.
    + intros x Hx. now apply (find_none _ _ Hfind).
    + apply has_userId_eq, get_with_defaults_kept. now rewrite Hkeep.
Qed.

(** X9.  Posting to an existing profile merges: the record keeps its place and
    every attribute the body does not name, and takes every field the body
    does name.  Nothing the profile already held is dropped. *)
Theorem post_user_profile_merges :
  forall defaults req w userId name email d0,
    store_fault w = None ->
    present (get "userId" (body req)) = Some userId ->
    present (get "name" (body req)) = Some name ->
    present (get "email" (body req)) = Some email ->
    find (has_userId userId) (users w) = Some d0 ->
    exists d w',
      post_user_profile defaults req w
        = (Returns (Response 200 (Json (JObj d))), w') /\
      List.length (users w') = List.length (users w) /\
      (forall k, get k (body req) = None -> get k d = get k d0) /\
      (NoDup (map fst (body req)) ->
       forall k v, get k (body req) = Some v -> get k d = Some v).
Proof.
  intros defaults req w userId name email d0 Hf Hu Hn He Hfind.
  destruct (post_user_profile_shape defaults req w userId name email)
    as (pre & d & post & Hrun & Hpre & Hd & [(d1 & Hl & Hfind' & Hd1) | Hnew]);
    auto.
  2: { destruct Hnew as (_ & _ & Hnone & _). congruence. }
  rewrite Hfind in Hfind'. inversion Hfind'; subst d1. clear Hfind'.
  destruct (profile_update_fields req name email d0 Hn He)
    as (Hkey & Hkept & Hposted).
  cbv zeta in Hkey, Hkept, Hposted. rewrite <- Hd1 in Hkey, Hkept, Hposted.
  exists d. eexists. split; [exact Hrun | ].
  unfold set_users; cbn [users]. split; [ | split ].
  - rewrite Hl, !length_app. reflexivity.
  - exact Hkept.
  - intros Hnd k v Hk.
    destruct (String.eqb_spec k "userId") as [-> | Hne].
    + apply present_some in Hu. destruct Hu as [Hu _].
      rewrite Hkey. apply find_some in Hfind.
      destruct Hfind as [_ Hfind]. apply has_userId_eq in Hfind. congruence.
    + now apply Hposted.
Qed.

Lemma post_user_profile_merges_witness :
  exists d w',
    post_user_profile Sample.defaults
      (Request [] [("userId", JStr "u1"); ("name", JStr "Anne");
                   ("email", JStr "anne@example.org"); ("age", JNum 41)])
      Sample.populated
      = (Returns (Response 200 (Json (JObj d))), w') /\
    List.length (users w') = List.length (users Sample.populated) /\
    (forall k,
       get k [("userId", JStr "u1"); ("name", JStr "Anne");
              ("email", JStr "anne@example.org"); ("age", JNum 41)] = None ->
       get k d = get k Sample.ann) /\
    (NoDup (map fst [("userId", JStr "u1"); ("name", JStr "Anne");
                     ("email", JStr "anne@example.org"); ("age", JNum 41)]) ->
     forall k v,
       get k [("userId", JStr "u1"); ("name", JStr "Anne");
              ("email", JStr "anne@example.org"); ("age", JNum 41)] = Some v ->
       get k d = Some v).
Proof.
  apply (post_user_profile_merges Sample.defaults
           (Request [] [("userId", JStr "u1"); ("name", JStr "Anne");
                        ("email", JStr "anne@example.org"); ("age", JNum 41)])
           Sample.populated (JStr "u1") (JStr "Anne")
           (JStr "anne@example.org") Sample.ann);
    reflexivity.
Defined.

(** X10.  Posting under a new [userId] appends one record: it holds every field
    of the body, and for every other field the schema default, when there is
    one.  Posted fields win over defaults. *)
Theorem post_user_profile_inserts :
  forall defaults req w userId name email,
    store_fault w = None ->
    present (get "userId" (body req)) = Some userId ->
    present (get "name" (body req)) = Some name ->
    present (get "email" (body req)) = Some email ->
    find (has_userId userId) (users w) = None ->
    exists d w',
      post_user_profile defaults req w
        = (Returns (Response 200 (Json (JObj d))), w') /\
      users w' = users w ++ [d] /\
      (forall k, get k (body req) = None -> get k d = get k defaults) /\
      (NoDup (map fst (body req)) ->
       forall k v, get k (body req) = Some v -> get k d = Some v).
Proof.
  intros defaults req w userId name email Hf Hu Hn He Hfind.
  destruct (post_user_profile_shape defaults req w userId name email)
    as (pre & d & post & Hrun & Hpre & Hd & [(d1 & _ & Hsome & _) | Hnew]);
    auto; [congruence | ].
  destruct Hnew as (Hl & Hpost & _ & Hdef). subst pre post.
  destruct (profile_update_fields req name email [("userId", userId)] Hn He)
    as (Hkey & Hkept & Hposted).
  cbv zeta in Hkey, Hkept, Hposted.
  destruct (present_some _ _ Hu) as [Hgu _].
  exists d. eexists. split; [exact Hrun | ].
  unfold set_users; cbn [users]. split; [reflexivity | split ].
  - intros k Hk. rewrite Hdef, get_with_defaults, (Hkept k Hk). simpl.
    destruct (String.eqb_spec k "userId") as [-> | Hne]; [congruence | ].
    reflexivity.
  - intros Hnd k v Hk. rewrite Hdef. apply get_with_defaults_kept.
    destruct (String.eqb_spec k "userId") as [-> | Hne].
    + rewrite Hkey. simpl. congruence.
    + now apply Hposted.
Qed.

Lemma post_user_profile_inserts_witness :
  exists d w',
    post_user_profile Sample.defaults
      (Request [] [("userId", JStr "u3"); ("name", JStr "Cy");
                   ("email", JStr "cy@example.org")])
      Sample.populated
      = (Returns (Response 200 (Json (JObj d))), w') /\
    users w' = users Sample.populated ++ [d] /\
    (forall k,
       get k [("userId", JStr "u3"); ("name", JStr "Cy");
              ("email", JStr "cy@example.org")] = None ->
       get k d = get k Sample.defaults) /\
    (NoDup (map fst [("userId", JStr "u3"); ("name", JStr "Cy");
                     ("email", JStr "cy@example.org")]) ->
     forall k v,
       get k [("userId", JStr "u3"); ("name", JStr "Cy");
              ("email", JStr "cy@example.org")] = Some v ->
       get k d = Some v).
Proof.
  apply (post_user_profile_inserts Sample.defaults
           (Request [] [("userId", JStr "u3"); ("name", JStr "Cy");
                        ("email", JStr "cy@example.org")])
           Sample.populated (JStr "u3") (JStr "Cy") (JStr "cy@example.org"));
    reflexivity.
Defined.

Lemma post_user_profile_frame :
  forall defaults req w other,
    get "userId" (body req) <> Some other ->
    filter (has_userId other) (users (snd (post_user_profile defaults req w)))
    = filter (has_userId other) (users w).
Proof.
  intros defaults req w other Hother.
  destruct (present_cases (get "userId" (body req)))
    as [(u & Hu & _) | (Hu & _)];
  destruct (present_cases (get "name" (body req)))
    as [(n & Hn & _) | (Hn & _)];
  destruct (present_cases (get "email" (body req)))
    as [(e & He & _) | (He & _)];
  try (unfold post_user_profile; rewrite ?Hu, ?Hn, ?He; reflexivity).
  destruct (store_fault w) as [err | ] eqn:Hf.
  { unfold post_user_profile. rewrite Hu, Hn, He.
    unfold try_catch, bind, User_findOneAndUpdate, store_call.
    now rewrite Hf. }
  destruct (post_user_profile_shape defaults req w u n e Hf Hu Hn He)
    as (pre & d & post & Hrun & Hpre & Hd & Hcases).
  rewrite Hrun. unfold set_users; cbn [snd users].
  assert (Hd' : has_userId other d = false).
  { destruct (has_userId other d) eqn:E; auto.
    apply has_userId_eq in E, Hd. apply present_some in Hu.
    destruct Hu as [Hu _]. congruence. }
  destruct Hcases as [(d0 & Hl & Hfind & _) | (Hl & Hpost & _)].
  - rewrite Hl, !filter_app. cbn [filter]. rewrite Hd'.
    assert (Hd0 : has_userId other d0 = false).
    { destruct (has_userId other d0) eqn:E; auto.
      apply find_some in Hfind. destruct Hfind as [_ Hfind].
      apply has_userId_eq in E, Hfind. apply present_some in Hu.
      destruct Hu as [Hu _]. congruence. }
    now rewrite Hd0.
  - subst pre post. rewrite filter_app. cbn [filter]. rewrite Hd'.
    apply app_nil_r.
Qed.

(** X11.  A post never touches the records of another [userId]: whatever the
    request and the state of the store, the records stored under any key
    other than the posted one are the same before and after. *)
Theorem post_user_profile_leaves_others :
  forall defaults req w other,
    get "userId" (body req) <> Some other ->
    filter (has_userId other) (users (snd (post_user_profile defaults req w)))
    = filter (has_userId other) (users w).
Proof. exact post_user_profile_frame. Qed.

Lemma post_user_profile_leaves_others_witness :
  filter (has_userId (JStr "u2"))
    (users (snd (post_user_profile Sample.defaults
                   (Request [] [("userId", JStr "u1"); ("name", JStr "Anne");
                                ("email", JStr "anne@example.org")])
                   Sample.populated)))
  = filter (has_userId (JStr "u2")) (users Sample.populated).
Proof.
  apply (post_user_profile_leaves_others Sample.defaults
           (Request [] [("userId", JStr "u1"); ("name", JStr "Anne");
                        ("email", JStr "anne@example.org")])
           Sample.populated (JStr "u2")).
  discriminate.
Defined.

Lemma set_field_fixed :
  forall k v d, get k d = Some v -> set_field k v d = d.
Proof.
  intros k v d. induction d as [ | [k' v'] d IH ]; simpl; [discriminate | ].
  destruct (String.eqb k k') eqn:E.
  - intros H. inversion H. reflexivity.
  - intros H. now rewrite IH.
Qed.

(** Re-applying to a document a field set it already agrees with changes
    nothing. *)
Lemma apply_set_fixed :
  forall upd d,
    (forall k v, In (k, v) upd -> get k d = Some v) -> apply_set upd d = d.
Proof.
  intros upd. unfold apply_set.
  induction upd as [ | [k v] upd IH ]; intros d H; simpl; auto.
  rewrite set_field_fixed by (apply H; now left).
  apply IH. intros k' v' Hin. apply H. now right.
Qed.

Lemma get_in_unique_keys :
  forall k v o, NoDup (map fst o) -> In (k, v) o -> get k o = Some v.
Proof.
  intros k v o. induction o as [ | [k' v'] o IH ]; simpl; intros Hnd Hin;
    [contradiction | ].
  inversion Hnd as [ | ? ? Hout Hnd' ]; subst.
  destruct Hin as [E | Hin].
  - inversion E; subst. now rewrite String.eqb_refl.
  - destruct (String.eqb_spec k k') as [-> | Hne]; auto.
    exfalso. apply Hout. apply in_map_iff. exists (k', v). auto.
Qed.

Lemma apply_set_twice :
  forall upd d,
    NoDup (map fst upd) -> apply_set upd (apply_set upd d) = apply_set upd d.
Proof.
  intros upd d Hnd. apply apply_set_fixed. intros k v Hin.
  rewrite get_apply_set, get_rev_unique_keys by assumption.
  now rewrite (get_in_unique_keys k v upd).
Qed.

Lemma profile_update_unique_keys :
  forall req name email,
    NoDup (map fst (body req)) ->
    NoDup (map fst (profile_update name email
                      (omit ["userId"; "name"; "email"] (body req)))).
Proof.
  intros req name email Hnd. unfold profile_update. simpl.
  constructor; [ | constructor ].
  - simpl. intros [E | Hin]; [discriminate | ].
    revert Hin. apply omit_not_key. simpl. auto.
  - apply omit_not_key. simpl. auto.
  - now apply omit_keys_subset.
Qed.

(** X12.  Posting the same profile again is a no-op: the second post returns the
    same response as the first and leaves the world as the first post left
    it. *)
Theorem post_user_profile_idempotent :
  forall defaults req w userId name email,
    store_fault w = None ->
    present (get "userId" (body req)) = Some userId ->
    present (get "name" (body req)) = Some name ->
    present (get "email" (body req)) = Some email ->
    NoDup (map fst (body req)) ->
    exists r w1,
      post_user_profile defaults req w = (Returns r, w1) /\
      post_user_profile defaults req w1 = (Returns r, w1).
Proof.
  intros defaults req w userId name email Hf Hu Hn He Hnd.
  destruct (post_user_profile_shape defaults req w userId name email)
    as (pre & d & post & Hrun & Hpre & Hd & Hcases); auto.
  cbv zeta in Hcases.
  set (upd := profile_update name email
                (omit ["userId"; "name"; "email"] (body req))) in *.
  assert (Hupd : NoDup (map fst upd))
    by now apply profile_update_unique_keys.
  assert (Hfix : apply_set upd d = d).
  { destruct Hcases as [(d0 & _ & _ & ->) | (_ & _ & _ & ->)].
    - now apply apply_set_twice.
    - apply apply_set_fixed. intros k v Hin.
      apply get_with_defaults_kept.
      rewrite get_apply_set, get_rev_unique_keys by assumption.
      now rewrite (get_in_unique_keys k v upd). }
  do 2 eexists. split; [exact Hrun | ].
  rewrite (post_user_profile_runs defaults req _ userId name email);
    auto.
  fold upd. unfold set_users at 1; cbn [users].
  rewrite update_first_in_place by assumption. rewrite Hfix.
  unfold set_users. reflexivity.
Qed.

Lemma post_user_profile_idempotent_witness :
  exists r w1,
    post_user_profile Sample.defaults
      (Request [] [("userId", JStr "u3"); ("name", JStr "Cy");
                   ("email", JStr "cy@example.org"); ("age", JNum 40)])
      Sample.populated = (Returns r, w1) /\
    post_user_profile Sample.defaults
      (Request [] [("userId", JStr "u3"); ("name", JStr "Cy");
                   ("email", JStr "cy@example.org"); ("age", JNum 40)])
      w1 = (Returns r, w1).
Proof.
  apply (post_user_profile_idempotent Sample.defaults
           (Request [] [("userId", JStr "u3"); ("name", JStr "Cy");
                        ("email", JStr "cy@example.org"); ("age", JNum 40)])
           Sample.populated (JStr "u3") (JStr "Cy") (JStr "cy@example.org"));
    try reflexivity.
  simpl. repeat constructor; simpl; intuition discriminate.
Defined.

(* ===================================================================== *)
(** ** Partial update: round trip, empty body, change of key *)
(* ===================================================================== *)

Lemma put_user_profile_runs :
  forall defaults req w userId,
    store_fault w = None ->
    present (get "userId" (query req)) = Some userId ->
    put_user_profile defaults req w =
    match update_first (has_userId userId) (apply_set (body req)) (users w) with
    | Some (d, us) => (Returns (Response 200 (Json (JObj d))), set_users us w)
    | None => (Returns (Response 404 (message_only "User not found")), w)
    end.
Proof.
  intros defaults req w userId Hf Hu. unfold put_user_profile. rewrite Hu.
  unfold try_catch, bind, User_findOneAndUpdate, store_call. rewrite Hf.
  destruct (update_first _ _ (users w)) as [[d us] | ]; reflexivity.
Qed.

Lemma get_user_profile_runs :
  forall req w userId,
    store_fault w = None ->
    present (get "userId" (query req)) = Some userId ->
    get_user_profile req w =
    (Returns
       match find (has_userId userId) (users w) with
       | None => Response 404 (message_only "User not found")
       | Some d => Response 200 (Json (JObj d))
       end, w).
Proof.
  intros req w userId Hf Hu. unfold get_user_profile. rewrite Hu.
  unfold try_catch, bind, User_findOne, store_call. rewrite Hf.
  destruct (find _ (users w)); reflexivity.
Qed.

(** X14.  Update, then fetch: when the body does not name [userId], fetching the
    profile after an accepted update returns the updated record. *)
Theorem fetch_returns_updated_profile :
  forall defaults req w userId d,
    store_fault w = None ->
    present (get "userId" (query req)) = Some userId ->
    find (has_userId userId) (users w) = Some d ->
    get "userId" (body req) = None ->
    exists w',
      put_user_profile defaults req w
        = (Returns (Response 200 (Json (JObj (apply_set (body req) d)))), w') /\
      get_user_profile req w'
        = (Returns (Response 200 (Json (JObj (apply_set (body req) d)))), w').
Proof.
  intros defaults req w userId d Hf Hu Hfind Hbody.
  rewrite (put_user_profile_runs defaults req w userId) by assumption.
  destruct (find_some_split _ _ _ Hfind) as (pre & post & Hl & Hd & Hpre).
  rewrite Hl, update_first_in_place by assumption.
  eexists. split; [reflexivity | ].
  rewrite (get_user_profile_runs req _ userId) by assumption.
  unfold set_users; cbn [users].
  rewrite find_in_place; auto.
  now rewrite has_userId_apply_set.
Qed.

Lemma fetch_returns_updated_profile_witness :
  exists w',
    put_user_profile Sample.defaults
      (Request [("userId", JStr "u2")] [("name", JStr "Benjamin")])
      Sample.populated
      = (Returns
           (Response 200
              (Json (JObj (apply_set [("name", JStr "Benjamin")] Sample.ben)))),
         w') /\
    get_user_profile
      (Request [("userId", JStr "u2")] [("name", JStr "Benjamin")]) w'
      = (Returns
           (Response 200
              (Json (JObj (apply_set [("name", JStr "Benjamin")] Sample.ben)))),
         w').
Proof.
  apply (fetch_returns_updated_profile Sample.defaults
           (Request [("userId", JStr "u2")] [("name", JStr "Benjamin")])
           Sample.populated (JStr "u2") Sample.ben); reflexivity.
Defined.

(** X15.  An update with an empty body changes nothing: it answers 200 with the
    stored record as it is and leaves the world as it was. *)
Theorem put_with_empty_body_is_a_fetch :
  forall defaults req w userId d,
    store_fault w = None ->
    present (get "userId" (query req)) = Some userId ->
    find (has_userId userId) (users w) = Some d ->
    body req = [] ->
    put_user_profile defaults req w
      = (Returns (Response 200 (Json (JObj d))), w).
Proof.
  intros defaults req w userId d Hf Hu Hfind Hbody.
  rewrite (put_user_profile_runs defaults req w userId) by assumption.
  destruct (find_some_split _ _ _ Hfind) as (pre & post & Hl & Hd & Hpre).
  rewrite Hl, update_first_in_place, Hbody by assumption.
  cbn [apply_set fold_left]. rewrite <- Hl. now rewrite set_users_same.
Qed.

Lemma put_with_empty_body_is_a_fetch_witness :
  put_user_profile Sample.defaults (Request [("userId", JStr "u2")] [])
    Sample.populated
  = (Returns (Response 200 (Json (JObj Sample.ben))), Sample.populated).
Proof.
  apply (put_with_empty_body_is_a_fetch Sample.defaults
           (Request [("userId", JStr "u2")] []) Sample.populated
           (JStr "u2") Sample.ben); reflexivity.
Defined.

(** X16.  The update does not protect the key: a body that names a different
    [userId] moves the profile.  When the old key had this one record and
    the new key none, the profile is afterwards not found under the old key
    and found, updated, under the new one. *)
Theorem put_can_change_the_key :
  forall defaults req w userId newId d,
    store_fault w = None ->
    present (get "userId" (query req)) = Some userId ->
    filter (has_userId userId) (users w) = [d] ->
    NoDup (map fst (body req)) ->
    get "userId" (body req) = Some newId ->
    newId <> userId ->
    truthy (Some newId) = true ->
    find (has_userId newId) (users w) = None ->
    exists w',
      put_user_profile defaults req w
        = (Returns (Response 200 (Json (JObj (apply_set (body req) d)))), w') /\
      get_user_profile (Request [("userId", userId)] []) w'
        = (Returns (Response 404 (message_only "User not found")), w') /\
      get_user_profile (Request [("userId", newId)] []) w'
        = (Returns (Response 200 (Json (JObj (apply_set (body req) d)))), w').
Proof.
  intros defaults req w userId newId d Hf Hu Hone Hnd Hnew Hne Htruthy Hfresh.
  assert (Hfind : find (has_userId userId) (users w) = Some d).
  { destruct (find (has_userId userId) (users w)) as [d' | ] eqn:E.
    - destruct (find_some_split _ _ _ E) as (pre & post & Hl & Hd & Hpre).
      rewrite Hl, filter_app in Hone. cbn [filter] in Hone.
      rewrite Hd, (filter_none _ pre Hpre) in Hone. inversion Hone. reflexivity.
    - apply find_none_filter in E. congruence. }
  rewrite (put_user_profile_runs defaults req w userId) by assumption.
  destruct (find_some_split _ _ _ Hfind) as (pre & post & Hl & Hd & Hpre).
  rewrite Hl, update_first_in_place by assumption.
  set (d' := apply_set (body req) d).
  assert (Hkey : get "userId" d' = Some newId).
  { unfold d'. now rewrite get_apply_set, get_rev_unique_keys, Hnew. }
  assert (Hpost : filter (has_userId userId) post = []).
  { rewrite Hl, filter_app in Hone. cbn [filter] in Hone.
    rewrite Hd, (filter_none _ pre Hpre) in Hone. now inversion Hone. }
  destruct (present_some _ _ Hu) as [_ Htu].
  eexists. split; [reflexivity | ]. split.
  - rewrite (get_user_profile_runs _ _ userId); auto.
    2: { cbn. unfold present. now rewrite Htu. }
    unfold set_users; cbn [users].
    assert (Hnone : find (has_userId userId) (pre ++ d' :: post) = None).
    { destruct (find (has_userId userId) (pre ++ d' :: post)) as [x | ] eqn:E;
        auto.
      apply find_some in E. destruct E as [Hin Hx].
      apply in_app_or in Hin. destruct Hin as [Hin | [<- | Hin]].
      - rewrite (Hpre x Hin) in Hx. discriminate.
      - apply has_userId_eq in Hx. congruence.
      - assert (In x (filter (has_userId userId) post))
          by (apply filter_In; auto).
        rewrite Hpost in H. contradiction. }
    now rewrite Hnone.
  - rewrite (get_user_profile_runs _ _ newId); auto.
    2: { cbn. unfold present. now rewrite Htruthy. }
    unfold set_users; cbn [users].
    rewrite find_in_place; auto.
    + now apply has_userId_eq.
    + intros x Hx. apply (find_none _ _ Hfresh). rewrite Hl.
      apply in_or_app. now left.
Qed.

Lemma put_can_change_the_key_witness :
  exists w',
    put_user_profile Sample.defaults
      (Request [("userId", JStr "u2")] [("userId", JStr "u7")])
      Sample.populated
      = (Returns
           (Response 200
              (Json (JObj (apply_set [("userId", JStr "u7")] Sample.ben)))),
         w') /\
    get_user_profile (Request [("userId", JStr "u2")] []) w'
      = (Returns (Response 404 (message_only "User not found")), w') /\
    get_user_profile (Request [("userId", JStr "u7")] []) w'
      = (Returns
           (Response 200
              (Json (JObj (apply_set [("userId", JStr "u7")] Sample.ben)))),
         w').
Proof.
  apply (put_can_change_the_key Sample.defaults
           (Request [("userId", JStr "u2")] [("userId", JStr "u7")])
           Sample.populated (JStr "u2") (JStr "u7") Sample.ben);
    try reflexivity.
  - simpl. repeat constructor. simpl. tauto.
  - discriminate.
Defined.

(* ===================================================================== *)
(** ** Reminders: create, then list *)
(* ===================================================================== *)

Lemma post_reminders_runs :
  forall cast req w userId title dueDate,
    present (get "userId" (body req)) = Some userId ->
    present (get "title" (body req)) = Some title ->
    present (get "dueDate" (body req)) = Some dueDate ->
    post_reminders cast req w =
    match cast dueDate with
    | inl e =>
        (Returns (Response 500 (message_and_error "Server error" e)), bump_id w)
    | inr due =>
        match store_fault w with
        | Some e =>
            (Returns (Response 500 (message_and_error "Server error" e)),
             bump_id w)
        | None =>
            let r := Reminder (next_id w) userId title due
                       (get "description" (body req)) in
            (Returns (Response 201 (ReminderDoc r)), add_reminder r (bump_id w))
        end
    end.
Proof.
  intros cast req w userId title dueDate Hu Ht Hd.
  unfold post_reminders. rewrite Hu, Ht, Hd.
  unfold try_catch, bind, new_Reminder, save. cbn [d_dueDate].
  destruct (cast dueDate); [reflexivity | ].
  unfold store_call. cbn [store_fault bump_id].
  destruct (store_fault w); reflexivity.
Qed.

Lemma get_reminders_runs :
  forall req w userId,
    store_fault w = None ->
    present (get "userId" (query req)) = Some userId ->
    get_reminders req w =
    (Returns
       (Response 200
          (ReminderDocs
             (ReminderSort.sort (filter (owned_by userId) (reminders w))))),
     w).
Proof.
  intros req w userId Hf Hu. unfold get_reminders. rewrite Hu.
  unfold try_catch, bind, Reminder_find_sort, store_call. now rewrite Hf.
Qed.

(** X17.  Create, then list: an accepted creation answers 201 with a reminder that
    carries the posted [userId] and [title], the cast due date and the
    posted [description]; the owner's listing afterwards is the listing from
    before plus the new reminder, reordered. *)
Theorem created_reminder_is_listed :
  forall cast req req_list w userId title dueDate due,
    store_fault w = None ->
    present (get "userId" (body req)) = Some userId ->
    present (get "title" (body req)) = Some title ->
    present (get "dueDate" (body req)) = Some dueDate ->
    cast dueDate = inr due ->
    get "userId" (query req_list) = Some userId ->
    exists r w' before after,
      post_reminders cast req w = (Returns (Response 201 (ReminderDoc r)), w') /\
      r_userId r = userId /\ r_title r = title /\ r_dueDate r = due /\
      r_description r = get "description" (body req) /\
      get_reminders req_list w
        = (Returns (Response 200 (ReminderDocs before)), w) /\
      get_reminders req_list w'
        = (Returns (Response 200 (ReminderDocs after)), w') /\
      In r after /\
      Permutation after (r :: before).
Proof.
  intros cast req req_list w userId title dueDate due Hf Hu Ht Hd Hcast Hq.
  rewrite (post_reminders_runs cast req w userId title dueDate) by assumption.
  rewrite Hcast, Hf. cbv zeta.
  set (r := Reminder (next_id w) userId title due
              (get "description" (body req))).
  destruct (present_some _ _ Hu) as [_ Htu].
  assert (Hp : present (get "userId" (query req_list)) = Some userId).
  { rewrite Hq. unfold present. now rewrite Htu. }
  exists r, (add_reminder r (bump_id w)).
  rewrite (get_reminders_runs req_list w userId) by assumption.
  rewrite (get_reminders_runs req_list (add_reminder r (bump_id w)) userId)
    by assumption.
  do 2 eexists. do 7 (split; [reflexivity | ]).
  cbn [reminders add_reminder bump_id].
  assert (Hperm :
    Permutation
      (ReminderSort.sort (filter (owned_by userId) (reminders w ++ [r])))
      (r :: ReminderSort.sort (filter (owned_by userId) (reminders w)))).
  { rewrite filter_app. cbn [filter].
    assert (Hr : owned_by userId r = true) by now apply owned_by_eq.
    rewrite Hr.
    eapply Permutation_trans;
      [apply Permutation_sym, ReminderSort.Permuted_sort | ].
    eapply Permutation_trans; [apply Permutation_app_comm | ].
    simpl. constructor. apply ReminderSort.Permuted_sort. }
  split; [ | exact Hperm ].
  apply (Permutation_in _ (Permutation_sym Hperm)). now left.
Qed.

Lemma created_reminder_is_listed_witness :
  exists r w' before after,
    post_reminders Sample.cast_dueDate
      (Request [] [("userId", JStr "u1"); ("title", JStr "Scan");
                   ("dueDate", JNum 150)])
      Sample.populated = (Returns (Response 201 (ReminderDoc r)), w') /\
    r_userId r = JStr "u1" /\ r_title r = JStr "Scan" /\ r_dueDate r = 150%Z /\
    r_description r
      = get "description" [("userId", JStr "u1"); ("title", JStr "Scan");
                           ("dueDate", JNum 150)] /\
    get_reminders (Request [("userId", JStr "u1")] []) Sample.populated
      = (Returns (Response 200 (ReminderDocs before)), Sample.populated) /\
    get_reminders (Request [("userId", JStr "u1")] []) w'
      = (Returns (Response 200 (ReminderDocs after)), w') /\
    In r after /\
    Permutation after (r :: before).
Proof.
  apply (created_reminder_is_listed Sample.cast_dueDate
           (Request [] [("userId", JStr "u1"); ("title", JStr "Scan");
                        ("dueDate", JNum 150)])
           (Request [("userId", JStr "u1")] []) Sample.populated
           (JStr "u1") (JStr "Scan") (JNum 150) 150%Z); reflexivity.
Defined.

(** X18.  Creating a reminder never changes what another [userId] gets listed:
    whatever the outcome of the creation, the listing for any key other than
    the posted one answers as before. *)
Theorem reminder_creation_leaves_other_listings :
  forall cast req req_list w,
    get "userId" (query req_list) <> get "userId" (body req) ->
    fst (get_reminders req_list (snd (post_reminders cast req w)))
    = fst (get_reminders req_list w).
Proof.
  intros cast req req_list w Hother.
  assert (Hsame : forall w',
            store_fault w' = store_fault w -> reminders w' = reminders w ->
            fst (get_reminders req_list w') = fst (get_reminders req_list w)).
  { intros w' Hf Hr. unfold get_reminders.
    destruct (present (get "userId" (query req_list))); [ | reflexivity ].
    unfold try_catch, bind, Reminder_find_sort, store_call.
    rewrite Hf, Hr. destruct (store_fault w); reflexivity. }
  destruct (present_cases (get "userId" (body req)))
    as [(u & Hu & _) | (Hu & _)];
  destruct (present_cases (get "title" (body req)))
    as [(t & Ht & _) | (Ht & _)];
  destruct (present_cases (get "dueDate" (body req)))
    as [(dd & Hd & _) | (Hd & _)];
  try (unfold post_reminders; rewrite ?Hu, ?Ht, ?Hd; reflexivity).
  rewrite (post_reminders_runs cast req w u t dd) by assumption.
  destruct (cast dd) as [e | due]; [now apply Hsame | ].
  destruct (store_fault w) as [e | ] eqn:Hf;
    [apply Hsame; [exact Hf | reflexivity] | ].
  cbv zeta. cbn [snd]. unfold get_reminders.
  destruct (present (get "userId" (query req_list))) as [u' | ] eqn:Hu';
    [ | reflexivity ].
  unfold try_catch, bind, Reminder_find_sort, store_call.
  cbn [store_fault add_reminder bump_id reminders]. rewrite Hf.
  rewrite filter_app. cbn [filter].
  assert (Hno : owned_by u' (Reminder (next_id w) u t due
                               (get "description" (body req))) = false).
  { destruct (owned_by u' _) eqn:E; auto.
    apply owned_by_eq in E. cbn in E. subst u'.
    apply present_some in Hu, Hu'. destruct Hu as [Hu _], Hu' as [Hu' _].
    congruence. }
  rewrite Hno, app_nil_r. reflexivity.
Qed.

Lemma reminder_creation_leaves_other_listings_witness :
  fst (get_reminders (Request [("userId", JStr "u2")] [])
         (snd (post_reminders Sample.cast_dueDate
                 (Request [] [("userId", JStr "u1"); ("title", JStr "Scan");
                              ("dueDate", JNum 150)])
                 Sample.populated)))
  = fst (get_reminders (Request [("userId", JStr "u2")] []) Sample.populated).
Proof.
  apply (reminder_creation_leaves_other_listings Sample.cast_dueDate
           (Request [] [("userId", JStr "u1"); ("title", JStr "Scan");
                        ("dueDate", JNum 150)])
           (Request [("userId", JStr "u2")] []) Sample.populated).
  discriminate.
Defined.

(** X19.  A reminder that fails the schema's validation is not stored and the
    validation error is what the 500 response reports, whether or not the
    store is reachable: validation comes before the insert. *)
Theorem invalid_reminder_is_not_stored :
  forall cast req w userId title dueDate e,
    present (get "userId" (body req)) = Some userId ->
    present (get "title" (body req)) = Some title ->
    present (get "dueDate" (body req)) = Some dueDate ->
    cast dueDate = inl e ->
    exists w',
      post_reminders cast req w
        = (Returns (Response 500 (message_and_error "Server error" e)), w') /\
      reminders w' = reminders w /\
      users w' = users w.
Proof.
  intros cast req w userId title dueDate e Hu Ht Hd Hcast.
  rewrite (post_reminders_runs cast req w userId title dueDate) by assumption.
  rewrite Hcast. eexists. repeat split.
Qed.

Lemma invalid_reminder_is_not_stored_witness :
  exists w',
    post_reminders Sample.cast_dueDate
      (Request [] [("userId", JStr "u1"); ("title", JStr "Pills");
                   ("dueDate", JStr "soon")])
      Sample.disconnected
      = (Returns
           (Response 500
              (message_and_error "Server error"
                 (Error "Cast to date failed for path dueDate"))),
         w') /\
    reminders w' = reminders Sample.disconnected /\
    users w' = users Sample.disconnected.
Proof.
  apply (invalid_reminder_is_not_stored Sample.cast_dueDate
           (Request [] [("userId", JStr "u1"); ("title", JStr "Pills");
                        ("dueDate", JStr "soon")])
           Sample.disconnected (JStr "u1") (JStr "Pills") (JStr "soon"));
    reflexivity.
Defined.

(* ===================================================================== *)
(** ** The completion handlers: what is relayed *)
(* ===================================================================== *)

Lemma or_fallback_not_empty :
  forall text fallback, fallback <> "" -> or_fallback text fallback <> "".
Proof.
  intros text fallback Hfb. unfold or_fallback.
  destruct text as [s | ]; auto.
  destruct (String.eqb_spec s ""); auto.
Qed.

(** X21.  A 200 answer of a completion handler always carries text: its only
    field, [result] for the symptom checker and [response] for the chat, is
    a non-empty string, whatever the vendor returned. *)
Theorem completion_text_is_never_empty :
  forall req w,
    (forall r w',
       post_symptom_checker_identify req w = (Returns r, w') ->
       status r = 200 ->
       exists s, json r = Json (JObj [("result", JStr s)]) /\ s <> "") /\
    (forall r w',
       post_chat req w = (Returns r, w') ->
       status r = 200 ->
       exists s, json r = Json (JObj [("response", JStr s)]) /\ s <> "").
Proof.
  intros req w. split; intros r w'; run_handler.
  - destruct (as_array (get "symptoms" (body req))) as [[ | item items] | ];
      [ | destruct (groq w _) | ];
      intros E; inversion E; subst; cbn [status json]; try discriminate.
    intros _. eexists. split; [reflexivity | ].
    apply or_fallback_not_empty. discriminate.
  - destruct (present (get "message" (body req)));
      [ destruct (history_map _); [ | destruct (groq w _) ] | ];
      intros E; inversion E; subst; cbn [status json]; try discriminate.
    intros _. eexists. split; [reflexivity | ].
    apply or_fallback_not_empty. discriminate.
Qed.

Lemma completion_text_is_never_empty_witness :
  (exists s,
     json (Response 200 (Json (JObj [("result", JStr "Drink water.")])))
     = Json (JObj [("result", JStr s)]) /\ s <> "") /\
  (exists s,
     json (Response 200 (Json (JObj [("response", JStr "Drink water.")])))
     = Json (JObj [("response", JStr s)]) /\ s <> "").
Proof.
  destruct (completion_text_is_never_empty
              (Request [] [("symptoms", JArr [JStr "cough"]);
                           ("message", JStr "Hello")])
              Sample.populated) as [Hs Hc].
  split.
  - apply (Hs _ _ eq_refl eq_refl).
  - apply (Hc _ _ eq_refl eq_refl).
Defined.



Lemma map_throwing_null :
  forall items,
    In JNull items -> exists e, map_throwing history_entry items = inl e.
Proof.
  intros items. induction items as [ | m items IH ]; simpl; [tauto | ].
  intros [-> | Hin].
  - eexists. reflexivity.
  - destruct (history_entry m) as [e | c]; [eauto | ].
    destruct (IH Hin) as [e He]. rewrite He. eauto.
Qed.

(** X23.  A chat history that is not an array, or that holds a [null] entry,
    makes the handler answer 500 without sending anything to the vendor: the
    world is left as it was. *)
Theorem chat_rejects_malformed_history :
  forall req w message h,
    present (get "message" (body req)) = Some message ->
    get "chatHistory" (body req) = Some h ->
    ((forall items, h <> JArr items) \/
     (exists items, h = JArr items /\ In JNull items)) ->
    exists e,
      post_chat req w
        = (Returns (Response 500 (message_and_error "Chat error" e)), w).
Proof.
  intros req w message h Hm Hh Hbad.
  assert (Hthrow : exists e, history_map h = inl e).
  { destruct Hbad as [Hnot | (items & -> & Hnull)].
    - destruct h; try (eexists; reflexivity). now elim (Hnot items).
    - now apply map_throwing_null. }
  destruct Hthrow as [e He]. exists e.
  run_handler. now rewrite Hm, Hh, He.
Qed.

Lemma chat_rejects_malformed_history_witness :
  exists e,
    post_chat
      (Request [] [("message", JStr "Hello");
                   ("chatHistory", JStr "earlier we talked")])
      Sample.populated
    = (Returns (Response 500 (message_and_error "Chat error" e)),
       Sample.populated).
Proof.
  apply (chat_rejects_malformed_history
           (Request [] [("message", JStr "Hello");
                        ("chatHistory", JStr "earlier we talked")])
           Sample.populated (JStr "Hello") (JStr "earlier we talked"));
    try reflexivity.
  left. discriminate.
Defined.

(** X24.  History entries are not validated: an entry that is neither an object
    nor [null] (a string, a number, a boolean, an array) is forwarded to the
    vendor as a message with no role and no content. *)
Theorem chat_forwards_non_objects_blank :
  forall req w message history,
    present (get "message" (body req)) = Some message ->
    get "chatHistory" (body req) = Some (JArr history) ->
    ~ In JNull history ->
    exists r forwarded,
      post_chat req w
        = (Returns r,
           log_call
             (CompletionRequest
                (ChatMessage (Some (JStr "system")) (Some (JStr SYSTEM_PROMPT))
                   :: forwarded
                   ++ [ChatMessage (Some (JStr "user")) (Some message)])
                "llama3-8b-8192" 0.7 512)
             w) /\
      forall i entry,
        nth_error history i = Some entry ->
        (forall o, entry <> JObj o) ->
        nth_error forwarded i = Some (ChatMessage None None).
Proof.
  intros req w message history Hm Hh Hnn.
  destruct (post_chat_runs req w message history Hm Hh Hnn)
    as (forwarded & Hmap & Hrun).
  cbv zeta in Hrun.
  destruct (map_throwing_total _ _ history_entry history)
    as (forwarded' & Hmap' & _ & Hnth).
  { intros m Hin. apply history_entry_total. congruence. }
  rewrite Hmap in Hmap'. inversion Hmap'; subst forwarded'.
  eexists. exists forwarded. split; [exact Hrun | ].
  intros i entry Hi Hobj.
  destruct (Hnth i entry Hi) as (sent & Hsent & Hentry).
  rewrite Hsent. f_equal.
  assert (Hnull : entry <> JNull).
  { intros ->. apply Hnn. eapply nth_error_In; eauto. }
  destruct entry; try congruence; try (now inversion Hentry).
Qed.

Lemma chat_forwards_non_objects_blank_witness :
  exists r forwarded,
    post_chat
      (Request [] [("message", JStr "Hello");
                   ("chatHistory", JArr [JStr "hi"; JNum 3])])
      Sample.populated
      = (Returns r,
         log_call
           (CompletionRequest
              (ChatMessage (Some (JStr "system")) (Some (JStr SYSTEM_PROMPT))
                 :: forwarded
                 ++ [ChatMessage (Some (JStr "user")) (Some (JStr "Hello"))])
              "llama3-8b-8192" 0.7 512)
           Sample.populated) /\
    nth_error forwarded 1 = Some (ChatMessage None None).
Proof.
  destruct (chat_forwards_non_objects_blank
              (Request [] [("message", JStr "Hello");
                           ("chatHistory", JArr [JStr "hi"; JNum 3])])
              Sample.populated (JStr "Hello") [JStr "hi"; JNum 3]
              eq_refl eq_refl)
    as (r & forwarded & Hrun & Hnth).
  { simpl. intros [H | [H | []]]; discriminate. }
  exists r, forwarded. split; [exact Hrun | ].
  apply (Hnth 1 (JNum 3) eq_refl). discriminate.
Defined.

(* ===================================================================== *)
(** ** Outages, at concrete inputs *)
(* ===================================================================== *)

Lemma store_fault_responses_witness :
  put_user_profile Sample.defaults
    (Request [("userId", JStr "u1")]
       [("userId", JStr "u1"); ("name", JStr "Anne");
        ("email", JStr "anne@example.org"); ("title", JStr "Scan");
        ("dueDate", JNum 150)])
    Sample.disconnected
  = (Returns
       (Response 500
          (message_and_error "Server error" (Error "connection lost"))),
     Sample.disconnected) /\
  post_user_profile Sample.defaults
    (Request [("userId", JStr "u1")]
       [("userId", JStr "u1"); ("name", JStr "Anne");
        ("email", JStr "anne@example.org"); ("title", JStr "Scan");
        ("dueDate", JNum 150)])
    Sample.disconnected
  = (Returns
       (Response 500
          (message_and_error "Server error" (Error "connection lost"))),
     Sample.disconnected) /\
  post_reminders Sample.cast_dueDate
    (Request [("userId", JStr "u1")]
       [("userId", JStr "u1"); ("name", JStr "Anne");
        ("email", JStr "anne@example.org"); ("title", JStr "Scan");
        ("dueDate", JNum 150)])
    Sample.disconnected
  = (Returns
       (Response 500
          (message_and_error "Server error" (Error "connection lost"))),
     bump_id Sample.disconnected).
Proof.
  destruct (store_fault_responses Sample.defaults Sample.cast_dueDate
              (Request [("userId", JStr "u1")]
                 [("userId", JStr "u1"); ("name", JStr "Anne");
                  ("email", JStr "anne@example.org"); ("title", JStr "Scan");
                  ("dueDate", JNum 150)])
              Sample.disconnected (Error "connection lost") (JStr "u1")
              eq_refl)
    as (Hquery & Hpost & Hreminder).
  destruct (Hquery eq_refl) as (_ & Hput & _).
  split; [exact Hput | split ].
  - apply (Hpost (JStr "Anne") (JStr "anne@example.org")); reflexivity.
  - apply (Hreminder (JStr "Scan") (JNum 150) 150%Z); reflexivity.
Defined.


(* ===================================================================== *)
(** ** One record per key *)
(* ===================================================================== *)

Lemma filter_length_in_place :
  forall (p : doc -> bool) pre d d' post,
    p d' = p d ->
    List.length (filter p (pre ++ d' :: post))
    = List.length (filter p (pre ++ d :: post)).
Proof.
  intros p pre d d' post H. rewrite !filter_app, !length_app. cbn [filter].
  rewrite H. destruct (p d); reflexivity.
Qed.

(** X13.  The key stays unique: if no [userId] has more than one record, the same
    holds after a create-or-replace, whatever the request, and after a
    partial update whose body does not name [userId]. *)
Theorem profile_writes_keep_keys_unique :
  forall defaults req w,
    (forall u, List.length (filter (has_userId u) (users w)) <= 1) ->
    (forall u,
       List.length
         (filter (has_userId u)
            (users (snd (post_user_profile defaults req w)))) <= 1) /\
    (get "userId" (body req) = None ->
     forall u,
       List.length
         (filter (has_userId u)
            (users (snd (put_user_profile defaults req w)))) <= 1).
Proof.
  intros defaults req w Huniq. split.
  - intros u.
    destruct (value_eqb_eq u u) as [_ Hrefl].
    destruct (present_cases (get "userId" (body req)))
      as [(k & Hk & _) | (Hk & _)];
    destruct (present_cases (get "name" (body req)))
      as [(n & Hn & _) | (Hn & _)];
    destruct (present_cases (get "email" (body req)))
      as [(e & He & _) | (He & _)];
    try (unfold post_user_profile; rewrite ?Hk, ?Hn, ?He; apply Huniq).
    destruct (store_fault w) as [err | ] eqn:Hf.
    { unfold post_user_profile. rewrite Hk, Hn, He.
      unfold try_catch, bind, User_findOneAndUpdate, store_call.
      rewrite Hf. apply Huniq. }
    destruct (post_user_profile_upsert defaults req w k n e Hf Hk Hn He
                (Huniq k)) as (d & w' & Hrun & Hone & _).
    destruct (present_some _ _ Hk) as [Hgk _].
    assert (Hdec : u = k \/ u <> k).
    { destruct (value_eqb u k) eqn:E.
      - left. now apply value_eqb_eq.
      - right. intros ->. rewrite (Hrefl eq_refl) in E. discriminate. }
    destruct Hdec as [-> | Hne].
    + rewrite Hrun. cbn [snd]. rewrite Hone. simpl. lia.
    + rewrite post_user_profile_frame; [apply Huniq | ]. congruence.
  - intros Hbody u.
    destruct (present_cases (get "userId" (query req)))
      as [(k & Hk & _) | (Hk & _)].
    2: { unfold put_user_profile. rewrite Hk. apply Huniq. }
    destruct (store_fault w) as [err | ] eqn:Hf.
    { unfold put_user_profile. rewrite Hk.
      unfold try_catch, bind, User_findOneAndUpdate, store_call.
      rewrite Hf. apply Huniq. }
    rewrite (put_user_profile_runs defaults req w k) by assumption.
    destruct (find (has_userId k) (users w)) as [d | ] eqn:Hfind.
    + destruct (find_some_split _ _ _ Hfind) as (pre & post & Hl & Hd & Hpre).
      rewrite Hl, update_first_in_place by assumption.
      unfold set_users; cbn [snd users].
      rewrite (filter_length_in_place _ pre d).
      * rewrite <- Hl. apply Huniq.
      * now apply has_userId_apply_set.
    + rewrite update_first_no_match by assumption. apply Huniq.
Qed.

Lemma profile_writes_keep_keys_unique_witness :
  (forall u,
     List.length
       (filter (has_userId u)
          (users (snd (post_user_profile Sample.defaults
                         (Request [("userId", JStr "u2")]
                            [("name", JStr "Benjamin")])
                         Sample.populated)))) <= 1) /\
  (get "userId" [("name", JStr "Benjamin")] = None ->
   forall u,
     List.length
       (filter (has_userId u)
          (users (snd (put_user_profile Sample.defaults
                         (Request [("userId", JStr "u2")]
                            [("name", JStr "Benjamin")])
                         Sample.populated)))) <= 1).
Proof.
  apply (profile_writes_keep_keys_unique Sample.defaults
           (Request [("userId", JStr "u2")] [("name", JStr "Benjamin")])
           Sample.populated).
  intros u. unfold Sample.populated, Sample.ann, Sample.ben, has_userId.
  cbn [users filter get String.eqb Ascii.eqb Bool.eqb].
  destruct (value_eqb (JStr "u1") u) eqn:E1;
    destruct (value_eqb (JStr "u2") u) eqn:E2; cbn [List.length]; try lia.
  apply value_eqb_eq in E1, E2. congruence.
Defined.

(* ===================================================================== *)
(** ** The symptom prompt *)
(* ===================================================================== *)

Lemma array_join_strings :
  forall sep ss, array_join sep (map JStr ss) = join sep ss.
Proof.
  intros sep ss. unfold array_join. rewrite map_map. simpl.
  now rewrite map_id.
Qed.

(** X20.  For a non-empty list of symptom strings, the symptom checker sends the
    vendor exactly one request, a single [user] message whose text is the
    symptoms joined by a comma and a space between the fixed opening and
    closing words, and relays the vendor's answer: 500 with the vendor's
    error message, or 200 with the text. *)
Theorem symptom_checker_prompt :
  forall req w s ss,
    get "symptoms" (body req) = Some (JArr (map JStr (s :: ss))) ->
    let rq :=
      CompletionRequest
        [ChatMessage (Some (JStr "user"))
           (Some (JStr ("Given these symptoms: " ++ join ", " (s :: ss)
                        ++ ", list possible medical conditions and advice.")%string))]
        "llama3-8b-8192" 0.7 1024 in
    post_symptom_checker_identify req w =
    (Returns
       match groq w rq with
       | inl e => Response 500 (message_and_error "Symptom checker error" e)
       | inr c =>
           Response 200
             (Json (JObj [("result",
                           JStr (or_fallback (first_content c)
                                   "No information found."))]))
       end,
     log_call rq w).
Proof.
  intros req w s ss Hs. cbv zeta.
  unfold post_symptom_checker_identify. rewrite Hs.
  cbn [as_array map]. change (JStr s :: map JStr ss) with (map JStr (s :: ss)).
  rewrite array_join_strings.
  unfold try_catch, bind, ret, groq_chat_completions_create.
  destruct (groq w _); reflexivity.
Qed.

Lemma symptom_checker_prompt_witness :
  post_symptom_checker_identify
    (Request [] [("symptoms", JArr [JStr "cough"; JStr "fever"])])
    Sample.populated
  = (Returns
       match
         groq Sample.populated
           (CompletionRequest
              [ChatMessage (Some (JStr "user"))
                 (Some (JStr ("Given these symptoms: "
                              ++ join ", " ["cough"; "fever"]
                              ++ ", list possible medical conditions and advice.")%string))]
              "llama3-8b-8192" 0.7 1024)
       with
       | inl e => Response 500 (message_and_error "Symptom checker error" e)
       | inr c =>
           Response 200
             (Json (JObj [("result",
                           JStr (or_fallback (first_content c)
                                   "No information found."))]))
       end,
     log_call
       (CompletionRequest
          [ChatMessage (Some (JStr "user"))
             (Some (JStr ("Given these symptoms: "
                          ++ join ", " ["cough"; "fever"]
                          ++ ", list possible medical conditions and advice.")%string))]
          "llama3-8b-8192" 0.7 1024)
       Sample.populated).
Proof.
  apply (symptom_checker_prompt
           (Request [] [("symptoms", JArr [JStr "cough"; JStr "fever"])])
           Sample.populated "cough" ["fever"]).
  reflexivity.
Defined.
